(** * FerretDB: PostgreSQL collection adapter and client cursors

    A shallow embedding of

    - [internal/backends/postgresql/collection.go] (module [Postgresql]) and
    - [internal/clientconn/cursor/cursor.go] (module [CursorModel]),

    together with the properties of their documented behaviour.

    Go's [(value, error)] returns are values of [result]; a function of the
    adapter is a state-passing computation over the state of the storage
    engine, extended with the sequence of round trips made so far.  A
    goroutine panic is an outcome of its own. *)

From Stdlib Require Import String Ascii List ZArith Lia Bool.
From Stdlib Require Import Permutation Sorted DecimalString.
From stdpp Require Import gmap strings.
From Equations Require Import Equations.
Import ListNotations.

Local Open Scope string_scope.
Local Open Scope list_scope.
Local Open Scope Z_scope.

(** ** Errors *)

(** [backends.ErrorCode], restricted to the codes [collection.go] uses. *)
Inductive ErrorCode : Set :=
| ErrorCodeInsertDuplicateID
| ErrorCodeCollectionDoesNotExist
| ErrorCodeDatabaseDoesNotExist.

(** Go [error] values as they occur in the adapter.  [PgError] is
    [*pgconn.PgError] with its SQLSTATE [Code]; [DriverError] is any other
    failure of the driver or of a serialiser; [LazyError] is
    [lazyerrors.Error(err)], which records the calling function and keeps
    [err] reachable through [Unwrap]; [LazyErrorf] is [lazyerrors.Errorf];
    [BackendError] is [backends.NewError(code, err)]. *)
Inductive error : Set :=
| PgError (Code : string)
| DriverError (msg : string)
| LazyError (caller : string) (err : error)
| LazyErrorf (caller : string) (msg : string)
| BackendError (code : ErrorCode) (err : error).

(** [errors.As(err, &pgErr)] for a target of type [*pgconn.PgError]: the
    chain of [Unwrap] is followed; [*backends.Error] has no [Unwrap]. *)
Fixpoint errors_As_PgError (err : error) : option string :=
  match err with
  | PgError code => Some code
  | LazyError _ e => errors_As_PgError e
  | DriverError _ | LazyErrorf _ _ | BackendError _ _ => None
  end.

(** [pgerrcode.UniqueViolation]. *)
Definition UniqueViolation : string := "23505".

(** A Go [(value, error)] pair. *)
Inductive result (A : Type) : Type :=
| Ok (a : A)
| Err (e : error).
Arguments Ok {A} a.
Arguments Err {A} e.

(** What a call of the adapter comes to: a value, an error, or a panic. *)
Inductive outcome (A : Type) : Type :=
| Done (a : A)
| Fail (e : error)
| Panic (msg : string).
Arguments Done {A} a.
Arguments Fail {A} e.
Arguments Panic {A} msg.

Definition nilDereference : string :=
  "runtime error: invalid memory address or nil pointer dereference".

(** ** Statement arguments and engine round trips *)

(** The [any] values passed as statement arguments: [[]byte], [string] and
    [int64]. *)
Inductive arg : Type :=
| ArgBytes (b : list Byte.byte)
| ArgString (s : string)
| ArgInt64 (n : Z).

(** One round trip to the storage engine.  [EvExec] keeps what the engine
    answered: the [RowsAffected] of the command tag, or the error. *)
Inductive Event : Type :=
| EvBegin (r : option error)
| EvCommit (r : option error)
| EvRollback
| EvExec (q : string) (args : list arg) (r : result Z)
| EvQuery (q : string) (args : list arg)
| EvQueryRow (q : string) (args : list arg).

(** ** Fixed-width integers *)

(** Go's conversion [int32(x)] of an [int64]: the low 32 bits, signed. *)
Definition int32 (x : Z) : Z := (x + 2 ^ 31) mod 2 ^ 32 - 2 ^ 31.

(** [a + b] on [int32] operands. *)
Definition add32 (a b : Z) : Z := int32 (a + b).

(** Go's [int64] addition: the low 64 bits of the sum, signed. *)
Definition int64 (x : Z) : Z := (x + 2 ^ 63) mod 2 ^ 64 - 2 ^ 63.
Definition add64 (a b : Z) : Z := int64 (a + b).

(** ** Package [metadata]: the shapes the adapter reads *)

Module metadata.

Record IndexKeyPair : Set := {
  Field : string;
  Descending : bool
}.

Record IndexInfo : Set := {
  Name : string;
  PgIndex : string;
  Key : list IndexKeyPair;
  Unique : bool
}.

(** [Capped] stands for the result of the method [Capped()]. *)
Record Collection : Set := {
  TableName : string;
  Indexes : list IndexInfo;
  Capped : bool
}.

Record CollectionCreateParams : Set := {
  DBName : string;
  CollectionName : string
}.

(** Modelled from the spec: [metadata.Placeholder] is declared outside the
    files at hand.  It is a counter scoped to one statement build; [Next]
    advances it and returns the positional marker, the sequence being
    [$1], [$2], ... without gaps. *)
Definition Placeholder : Set := nat.

Definition zero : Placeholder := O.

Definition Next (p : Placeholder) : Placeholder * string :=
  (S p, String "$" (NilEmpty.string_of_uint (Nat.to_uint (S p)))).

End metadata.

(** ** Package [backends]: parameters and results *)

Module backends.

Record IndexKeyPair : Set := {
  Field : string;
  Descending : bool
}.

Record IndexInfo : Set := {
  Name : string;
  Unique : bool;
  Key : list IndexKeyPair
}.

Record ListIndexesResult : Set := {
  Indexes : list IndexInfo
}.

Record IndexSize : Set := {
  IndexSize_Name : string;
  Size : Z
}.

Record CollectionStatsParams : Set := {
  Refresh : bool
}.

Record CollectionStatsResult : Set := {
  CountDocuments : Z;
  SizeTotal : Z;
  SizeIndexes : Z;
  SizeCollection : Z;
  SizeFreeStorage : Z;
  IndexSizes : list IndexSize
}.

Record CompactParams : Set := {
  Full : bool
}.

Record CompactResult : Set := { }.

Record InsertAllResult : Set := { }.

Record UpdateAllResult : Set := {
  Updated : Z
}.

Record QueryParams (Document : Type) : Type := {
  Filter : option Document;
  Sort : option Document;
  Limit : Z;
  OnlyRecordIDs : bool;
  Comment : string
}.
Arguments Filter {Document} _.
Arguments Sort {Document} _.
Arguments Limit {Document} _.
Arguments OnlyRecordIDs {Document} _.
Arguments Comment {Document} _.

Record ExplainParams (Document : Type) : Type := {
  Explain_Filter : option Document;
  Explain_Sort : option Document;
  Explain_Limit : Z
}.
Arguments Explain_Filter {Document} _.
Arguments Explain_Sort {Document} _.
Arguments Explain_Limit {Document} _.

Record ExplainResult (Document : Type) : Type := {
  QueryPlanner : Document;
  FilterPushdown : bool;
  SortPushdown : bool;
  LimitPushdown : bool
}.
Arguments QueryPlanner {Document} _.
Arguments FilterPushdown {Document} _.
Arguments SortPushdown {Document} _.
Arguments LimitPushdown {Document} _.

Record InsertAllParams (Document : Type) : Type := {
  Docs : list Document
}.
Arguments Docs {Document} _.

Record UpdateAllParams (Document : Type) : Type := {
  Update_Docs : list Document
}.
Arguments Update_Docs {Document} _.

End backends.

(** ** The monad of adapter calls

    A call runs on a world [W] and comes to an [outcome]. *)

Definition M (W A : Type) : Type := W -> W * outcome A.

Definition ret {W A : Type} (a : A) : M W A := fun w => (w, Done a).

Definition fail {W A : Type} (e : error) : M W A := fun w => (w, Fail e).

Definition panic {W A : Type} (msg : string) : M W A := fun w => (w, Panic msg).

Definition bind {W A B : Type} (m : M W A) (k : A -> M W B) : M W B :=
  fun w =>
    match m w with
    | (w', Done a) => k a w'
    | (w', Fail e) => (w', Fail e)
    | (w', Panic msg) => (w', Panic msg)
    end.

Notation "'let*' x ':=' m 'in' k" := (bind m (fun x => k))
  (at level 10, x pattern, m at level 100, k at level 200).

(** [if err != nil { return nil, lazyerrors.Error(err) }] in [caller]. *)
Definition lazily {W A : Type} (caller : string) (m : M W A) : M W A :=
  fun w =>
    match m w with
    | (w', Fail e) => (w', Fail (LazyError caller e))
    | r => r
    end.

Definition of_result {W A : Type} (r : result A) : M W A :=
  match r with
  | Ok a => ret a
  | Err e => fail e
  end.

(** ** Package [postgresql]: the collection adapter *)

Module Postgresql.

(** [collection] without its registry pointer [r]: the registry is among
    the collaborators the adapter is given. *)
Record collection : Set := {
  dbName : string;
  name : string
}.

Record selectParams : Set := {
  Schema : string;
  Table : string;
  Comment : string;
  Capped : bool;
  OnlyRecordIDs : bool
}.

(** The result of the unexported [collectionsStats]. *)
Record stats : Set := {
  countDocuments : Z;
  sizeIndexes : Z;
  sizeTables : Z;
  sizeFreeStorage : Z
}.

(** [pgx.Rows] after the query has run: the rows still to be read and the
    error [Err()] reports once they are exhausted. *)
Record Rows (Row : Type) : Type := {
  rows_items : list Row;
  rows_Err : option error
}.
Arguments rows_items {Row} _.
Arguments rows_Err {Row} _.

(** What [newQueryIterator] is given. *)
Record queryIterator (Row : Type) : Type := {
  iter_rows : option (Rows Row);
  iter_onlyRecordIDs : bool
}.
Arguments iter_rows {Row} _.
Arguments iter_onlyRecordIDs {Row} _.

Record QueryResult (Row : Type) : Type := {
  Iter : queryIterator Row
}.
Arguments Iter {Row} _.

Definition batchSize : nat := 100.

(** The state an adapter call runs on: the storage engine with its
    catalog, and the round trips made so far, oldest first. *)
Record World (PG : Type) : Type := {
  pg : PG;
  trace : list Event
}.
Arguments pg {PG} _.
Arguments trace {PG} _.

(** *** Collaborators

    Everything the adapter calls that lives outside [collection.go]: the
    document type and its serialiser, the clause compiler of the same
    package, the metadata registry, the storage engine and the standard
    library's [sort.Slice].  The adapter is verified for every behaviour
    of them.

    [Document] is [types.Document], [Value] the values of its fields,
    [Row] a row of a result set, [Pool] a connection pool handle and [PG]
    the state of the engine with its catalog. *)
Class Collaborators (Document Value Row Pool PG : Type) : Type := {
  (** [must.NotFail(types.NewDocument())]: the empty document. *)
  NewDocument : Document;
  (** [doc.Get("_id")] with its error dropped: [None] is Go's [nil]. *)
  Document_Get_id : Document -> option Value;
  sjson_Marshal : Document -> result (list Byte.byte);
  sjson_MarshalSingleValue : Value -> result (list Byte.byte);
  (** [pgx.Identifier{...}.Sanitize()]. *)
  Sanitize : list string -> string;
  (** The constants [metadata.DefaultColumn] and [metadata.IDColumn]. *)
  DefaultColumn : string;
  IDColumn : string;
  (** The clause compiler; a [*metadata.Placeholder] is passed in and the
      advanced counter handed back. *)
  prepareSelectClause : selectParams -> string;
  prepareWhereClause :
    metadata.Placeholder -> option Document ->
    metadata.Placeholder * result (string * list arg);
  prepareOrderByClause :
    metadata.Placeholder -> option Document -> bool ->
    metadata.Placeholder * (string * list arg);
  prepareInsertStatement :
    string -> string -> bool -> list Document -> result (string * list arg);
  unmarshalExplain : list Byte.byte -> result Document;
  collectionsStats :
    Pool -> string -> list metadata.Collection -> bool ->
    PG -> PG * result stats;
  (** [rows.Scan(&name, &size)] on the current row. *)
  Row_Scan_index : Row -> result (string * Z);
  (** The metadata registry [c.r]. *)
  DatabaseGetExisting : string -> PG -> PG * result (option Pool);
  CollectionGet :
    string -> string -> PG -> PG * result (option metadata.Collection);
  CollectionCreate :
    metadata.CollectionCreateParams -> PG -> PG * result bool;
  (** The storage engine, reached through a pool or through the
      transaction begun on it. *)
  pgx_Query : Pool -> string -> list arg -> PG -> PG * result (Rows Row);
  pgx_Exec : Pool -> string -> list arg -> PG -> PG * result Z;
  pgx_QueryRow_Scan :
    Pool -> string -> list arg -> PG -> PG * result (list Byte.byte);
  pgx_Begin : Pool -> PG -> option error;
  pgx_Commit : Pool -> PG -> option error;
  (** [sort.Slice] on a slice of [backends.IndexInfo], the [less] function
      taken on elements. *)
  sort_Slice :
    (backends.IndexInfo -> backends.IndexInfo -> bool) ->
    list backends.IndexInfo -> list backends.IndexInfo
}.

Section Adapter.

Context {Document Value Row Pool PG : Type}.
Context {env : Collaborators Document Value Row Pool PG}.

Definition record (ev : Event) (w : World PG) : World PG :=
  {| pg := pg w; trace := trace w ++ [ev] |}.

(** A call into the registry, or into a helper that talks to the engine
    on its own: no round trip of the adapter is recorded. *)
Definition call {A : Type} (f : PG -> PG * result A) : M (World PG) A :=
  fun w =>
    match f (pg w) with
    | (g, Ok a) => ({| pg := g; trace := trace w |}, Done a)
    | (g, Err e) => ({| pg := g; trace := trace w |}, Fail e)
    end.

(** [p.Query(ctx, q, args...)]. *)
Definition Query_ (p : Pool) (q : string) (args : list arg)
  : M (World PG) (Rows Row) :=
  fun w =>
    match pgx_Query p q args (pg w) with
    | (g, Ok r) =>
        ({| pg := g; trace := trace w ++ [EvQuery q args] |}, Done r)
    | (g, Err e) =>
        ({| pg := g; trace := trace w ++ [EvQuery q args] |}, Fail e)
    end.

(** [p.Exec(ctx, q, args...)] and [tx.Exec(ctx, q, args...)]; the value is
    [RowsAffected()] of the command tag. *)
Definition Exec (p : Pool) (q : string) (args : list arg) : M (World PG) Z :=
  fun w =>
    match pgx_Exec p q args (pg w) with
    | (g, Ok n) =>
        ({| pg := g; trace := trace w ++ [EvExec q args (Ok n)] |}, Done n)
    | (g, Err e) =>
        ({| pg := g; trace := trace w ++ [EvExec q args (Err e)] |}, Fail e)
    end.

(** [p.QueryRow(ctx, q, args...).Scan(&b)]. *)
Definition QueryRow_Scan (p : Pool) (q : string) (args : list arg)
  : M (World PG) (list Byte.byte) :=
  fun w =>
    match pgx_QueryRow_Scan p q args (pg w) with
    | (g, Ok b) =>
        ({| pg := g; trace := trace w ++ [EvQueryRow q args] |}, Done b)
    | (g, Err e) =>
        ({| pg := g; trace := trace w ++ [EvQueryRow q args] |}, Fail e)
    end.

(** Modelled from the spec: [pool.InTransaction] is declared outside the
    files at hand.  It is the transaction-scoping helper that runs a unit
    of work atomically against a database handle: the transaction is
    acquired, the work runs in it, and it is released on every exit path;
    the work's effects on the engine are kept when the work returns no
    error and the transaction commits, and are rolled back otherwise.  The
    error of the work is handed back as it is.  The trace is not part of
    the engine: round trips made stay recorded. *)
Definition InTransaction {A : Type} (p : Pool) (f : Pool -> M (World PG) A)
  : M (World PG) A :=
  fun w =>
    match pgx_Begin p (pg w) with
    | Some e =>
        (record (EvBegin (Some e)) w, Fail (LazyError "InTransaction" e))
    | None =>
        match f p (record (EvBegin None) w) with
        | (w', Done a) =>
            match pgx_Commit p (pg w') with
            | None => (record (EvCommit None) w', Done a)
            | Some e =>
                ({| pg := pg w;
                    trace := trace w' ++ [EvCommit (Some e); EvRollback] |},
                 Fail (LazyError "InTransaction" e))
            end
        | (w', Fail e) =>
            ({| pg := pg w; trace := trace w' ++ [EvRollback] |}, Fail e)
        | (w', Panic msg) =>
            ({| pg := pg w; trace := trace w' ++ [EvRollback] |}, Panic msg)
        end
    end.

(** Modelled from the spec: [newQueryIterator] is declared outside the
    files at hand.  The iterator is a lazy sequence adapter over the rows
    of the result set; [rows_of] is the sequence of rows it has to decode,
    none when it was built over [nil]. *)
Definition newQueryIterator (r : option (Rows Row)) (onlyRecordIDs : bool)
  : queryIterator Row :=
  {| iter_rows := r; iter_onlyRecordIDs := onlyRecordIDs |}.

Definition rows_of (it : queryIterator Row) : list Row :=
  match iter_rows it with
  | None => []
  | Some r => rows_items r
  end.

(** *** [Query] *)

Definition Query (c : collection) (params : backends.QueryParams Document)
  : M (World PG) (QueryResult Row) :=
  let* p := lazily "Query" (call (DatabaseGetExisting (dbName c))) in
  match p with
  | None =>
      ret {| Iter := newQueryIterator None (backends.OnlyRecordIDs params) |}
  | Some p =>
      let* meta := lazily "Query" (call (CollectionGet (dbName c) (name c))) in
      match meta with
      | None =>
          ret {| Iter := newQueryIterator None (backends.OnlyRecordIDs params) |}
      | Some meta =>
          let q := prepareSelectClause
                     {| Schema := dbName c;
                        Table := metadata.TableName meta;
                        Comment := backends.Comment params;
                        Capped := metadata.Capped meta;
                        OnlyRecordIDs := backends.OnlyRecordIDs params |} in
          let placeholder := metadata.zero in
          match prepareWhereClause placeholder (backends.Filter params) with
          | (_, Err e) => fail (LazyError "Query" e)
          | (placeholder, Ok (where_, args)) =>
              let q := q +:+ where_ in
              let '(placeholder, (sort, sortArgs)) :=
                prepareOrderByClause placeholder (backends.Sort params)
                  (metadata.Capped meta) in
              let q := q +:+ sort in
              let args := args ++ sortArgs in
              let '(q, args) :=
                if backends.Limit params =? 0 then (q, args)
                else
                  (q +:+ " LIMIT " +:+ snd (metadata.Next placeholder),
                   args ++ [ArgInt64 (backends.Limit params)]) in
              let* rows := lazily "Query" (Query_ p q args) in
              ret {| Iter := newQueryIterator (Some rows)
                               (backends.OnlyRecordIDs params) |}
          end
      end
  end.

(** *** [InsertAll] *)

(** The loop of the transaction body,
    [for len(docs) > 0 { i := min(batchSize, len(docs)); batch, docs = docs[:i], docs[i:]; ... }].
    [meta] is the pointer [CollectionGet] returned; it is dereferenced for
    each batch. *)
Equations? insertBatches (c : collection) (meta : option metadata.Collection)
    (tx : Pool) (docs : list Document) (w : World PG)
  : World PG * outcome unit by wf (length docs) lt :=
  insertBatches c meta tx [] w := (w, Done tt);
  insertBatches c meta tx (d :: ds) w :=
    let i := Nat.min batchSize (length (d :: ds)) in
    let batch := firstn i (d :: ds) in
    match meta with
    | None => (w, Panic nilDereference)
    | Some meta' =>
        match prepareInsertStatement (dbName c) (metadata.TableName meta')
                (metadata.Capped meta') batch with
        | Err e => (w, Fail (LazyError "InsertAll" e))
        | Ok (q, args) =>
            match Exec tx q args w with
            | (w', Done _) => insertBatches c meta tx (skipn i (d :: ds)) w'
            | (w', Fail e) =>
                match errors_As_PgError e with
                | Some code =>
                    if String.eqb code UniqueViolation
                    then (w', Fail (BackendError ErrorCodeInsertDuplicateID e))
                    else (w', Fail (LazyError "InsertAll" e))
                | None => (w', Fail (LazyError "InsertAll" e))
                end
            | (w', Panic msg) => (w', Panic msg)
            end
        end
    end.
Proof.
  rewrite length_skipn. unfold batchSize. simpl. lia.
Qed.

(** [InsertAll].  The pool [p] is handed to [pool.InTransaction] unchecked:
    a [nil] pool is dereferenced there.  The error of the transaction is
    returned as it is. *)
Definition InsertAll (c : collection) (params : backends.InsertAllParams Document)
  : M (World PG) backends.InsertAllResult :=
  let* _ := lazily "InsertAll"
              (call (CollectionCreate
                       {| metadata.DBName := dbName c;
                          metadata.CollectionName := name c |})) in
  let* p := lazily "InsertAll" (call (DatabaseGetExisting (dbName c))) in
  let* meta := lazily "InsertAll" (call (CollectionGet (dbName c) (name c))) in
  match p with
  | None => panic nilDereference
  | Some p =>
      let* _ := InTransaction p
                  (fun tx => insertBatches c meta tx (backends.Docs params)) in
      ret backends.Build_InsertAllResult
  end.

(** *** [UpdateAll] *)

(** The loop of the transaction body, [for _, doc := range params.Docs];
    [updated] is [res.Updated]. *)
Fixpoint updateDocs (tx : Pool) (q : string) (docs : list Document)
    (updated : Z) : M (World PG) Z :=
  match docs with
  | [] => ret updated
  | doc :: docs' =>
      match sjson_Marshal doc with
      | Err e => fail (LazyError "UpdateAll" e)
      | Ok b =>
          match Document_Get_id doc with
          | None => panic "must.NotBeZero"
          | Some id =>
              match sjson_MarshalSingleValue id with
              | Err _ => panic "must.NotFail"
              | Ok arg =>
                  let* tag := lazily "UpdateAll"
                                (Exec tx q [ArgBytes b; ArgBytes arg]) in
                  updateDocs tx q docs' (add32 updated (int32 tag))
              end
          end
      end
  end.

Definition updateStatement (c : collection) (meta : metadata.Collection)
  : string :=
  "UPDATE " +:+ Sanitize [dbName c; metadata.TableName meta]
    +:+ " SET " +:+ DefaultColumn
    +:+ " = $1 WHERE " +:+ IDColumn +:+ " = $2".

(** [UpdateAll]; [must.NotBeZero] and [must.NotFail] in the loop panic. *)
Definition UpdateAll (c : collection) (params : backends.UpdateAllParams Document)
  : M (World PG) backends.UpdateAllResult :=
  let* p := lazily "UpdateAll" (call (DatabaseGetExisting (dbName c))) in
  match p with
  | None => ret {| backends.Updated := 0 |}
  | Some p =>
      let* meta := lazily "UpdateAll" (call (CollectionGet (dbName c) (name c))) in
      match meta with
      | None => ret {| backends.Updated := 0 |}
      | Some meta =>
          let q := updateStatement c meta in
          let* updated :=
            lazily "UpdateAll"
              (InTransaction p
                 (fun tx => updateDocs tx q (backends.Update_Docs params) 0)) in
          ret {| backends.Updated := updated |}
      end
  end.

(** *** [Explain] *)

(** [&backends.ExplainResult{QueryPlanner: must.NotFail(types.NewDocument())}]. *)
Definition emptyExplainResult : backends.ExplainResult Document :=
  {| backends.QueryPlanner := NewDocument;
     backends.FilterPushdown := false;
     backends.SortPushdown := false;
     backends.LimitPushdown := false |}.

(** [Explain].  Its first branch answers an error of [DatabaseGetExisting]
    with a result and a [nil] error, as the source does. *)
Definition Explain (c : collection) (params : backends.ExplainParams Document)
  : M (World PG) (backends.ExplainResult Document) :=
  fun w =>
    match call (DatabaseGetExisting (dbName c)) w with
    | (w', Fail _) => (w', Done emptyExplainResult)
    | (w', Panic msg) => (w', Panic msg)
    | (w', Done None) => (w', Done emptyExplainResult)
    | (w', Done (Some p)) =>
        (let* meta :=
           lazily "Explain" (call (CollectionGet (dbName c) (name c))) in
         match meta with
         | None => ret emptyExplainResult
         | Some meta =>
             let opts := {| Schema := dbName c;
                            Table := metadata.TableName meta;
                            Comment := EmptyString;
                            Capped := metadata.Capped meta;
                            OnlyRecordIDs := false |} in
             let q := "EXPLAIN (VERBOSE true, FORMAT JSON) "
                        +:+ prepareSelectClause opts in
             let placeholder := metadata.zero in
             match prepareWhereClause placeholder
                     (backends.Explain_Filter params) with
             | (_, Err e) => fail (LazyError "Explain" e)
             | (placeholder, Ok (where_, args)) =>
                 let filterPushdown := negb (String.eqb where_ EmptyString) in
                 let q := q +:+ where_ in
                 let '(placeholder, (sort, sortArgs)) :=
                   prepareOrderByClause placeholder
                     (backends.Explain_Sort params) (metadata.Capped meta) in
                 let q := q +:+ sort in
                 let args := args ++ sortArgs in
                 let sortPushdown := negb (String.eqb sort EmptyString) in
                 let '(q, args, limitPushdown) :=
                   if backends.Explain_Limit params =? 0 then (q, args, false)
                   else
                     (q +:+ " LIMIT " +:+ snd (metadata.Next placeholder),
                      args ++ [ArgInt64 (backends.Explain_Limit params)],
                      true) in
                 let* b := lazily "Explain" (QueryRow_Scan p q args) in
                 let* queryPlan :=
                   lazily "Explain" (of_result (unmarshalExplain b)) in
                 ret {| backends.QueryPlanner := queryPlan;
                        backends.FilterPushdown := filterPushdown;
                        backends.SortPushdown := sortPushdown;
                        backends.LimitPushdown := limitPushdown |}
             end
         end) w'
    end.

(** *** [Stats] *)

(** [lazyerrors.Errorf("no ns %s.%s", c.dbName, c.name)] in [caller]. *)
Definition noNamespace (caller : string) (c : collection) : error :=
  LazyErrorf caller ("no ns " +:+ dbName c +:+ "." +:+ name c).

(** [for _, index := range coll.Indexes { indexMap[index.PgIndex] = index.Name }]. *)
Definition buildIndexMap (indexes : list metadata.IndexInfo)
  : gmap string string :=
  fold_left
    (fun m index => <[metadata.PgIndex index := metadata.Name index]> m)
    indexes ∅.

(** [for rows.Next() { ... }] over the rows the engine returned;
    [indexSizes[i] = ...] panics when [i] is out of range. *)
Fixpoint scanIndexSizes (indexMap : gmap string string) (items : list Row)
    (i : nat) (indexSizes : list backends.IndexSize)
  : outcome (list backends.IndexSize) :=
  match items with
  | [] => Done indexSizes
  | row :: items' =>
      match Row_Scan_index row with
      | Err e => Fail (LazyError "Stats" e)
      | Ok (name, size) =>
          match indexMap !! name with
          | None => scanIndexSizes indexMap items' i indexSizes
          | Some indexName =>
              if (i <? length indexSizes)%nat
              then scanIndexSizes indexMap items' (S i)
                     (<[i := {| backends.IndexSize_Name := indexName;
                                backends.Size := size |}]> indexSizes)
              else Panic "runtime error: index out of range"
          end
      end
  end.

Definition Stats (c : collection) (params : backends.CollectionStatsParams)
  : M (World PG) backends.CollectionStatsResult :=
  let* p := lazily "Stats" (call (DatabaseGetExisting (dbName c))) in
  match p with
  | None =>
      fail (BackendError ErrorCodeCollectionDoesNotExist (noNamespace "Stats" c))
  | Some p =>
      let* coll := lazily "Stats" (call (CollectionGet (dbName c) (name c))) in
      match coll with
      | None =>
          fail (BackendError ErrorCodeCollectionDoesNotExist
                  (noNamespace "Stats" c))
      | Some coll =>
          let* stats :=
            lazily "Stats"
              (call (collectionsStats p (dbName c) [coll]
                       (backends.Refresh params))) in
          let indexMap := buildIndexMap (metadata.Indexes coll) in
          let q := "
		SELECT
			indexname,
			pg_relation_size(quote_ident(schemaname)|| '.' || quote_ident(indexname), 'main')
		FROM pg_indexes
		WHERE schemaname = $1 AND tablename IN ($2)
		" in
          let* rows :=
            lazily "Stats"
              (Query_ p q [ArgString (dbName c);
                           ArgString (metadata.TableName coll)]) in
          let indexSizes :=
            replicate (size indexMap)
              {| backends.IndexSize_Name := EmptyString; backends.Size := 0 |} in
          fun w =>
            match scanIndexSizes indexMap (rows_items rows) O indexSizes with
            | Fail e => (w, Fail e)
            | Panic msg => (w, Panic msg)
            | Done indexSizes =>
                match rows_Err rows with
                | Some e => (w, Fail (LazyError "Stats" e))
                | None =>
                    (w, Done
                       {| backends.CountDocuments := countDocuments stats;
                          backends.SizeTotal :=
                            add64 (sizeTables stats) (sizeIndexes stats);
                          backends.SizeIndexes := sizeIndexes stats;
                          backends.SizeCollection := sizeTables stats;
                          backends.SizeFreeStorage := sizeFreeStorage stats;
                          backends.IndexSizes := indexSizes |})
                end
            end
      end
  end.

(** *** [Compact] *)

(** [params] may be [nil]: the code tests it. *)
Definition Compact (c : collection) (params : option backends.CompactParams)
  : M (World PG) backends.CompactResult :=
  let* db := lazily "Compact" (call (DatabaseGetExisting (dbName c))) in
  match db with
  | None =>
      fail (BackendError ErrorCodeDatabaseDoesNotExist (noNamespace "Compact" c))
  | Some db =>
      let* coll := lazily "Compact" (call (CollectionGet (dbName c) (name c))) in
      match coll with
      | None =>
          fail (BackendError ErrorCodeCollectionDoesNotExist
                  (noNamespace "Compact" c))
      | Some coll =>
          let q := match params with
                   | Some params' =>
                       if backends.Full params' then "VACUUM FULL ANALYZE "
                       else "VACUUM ANALYZE "
                   | None => "VACUUM ANALYZE "
                   end in
          let q := q +:+ Sanitize [dbName c; metadata.TableName coll] in
          let* _ := lazily "Compact" (Exec db q []) in
          ret backends.Build_CompactResult
      end
  end.

(** *** [ListIndexes] *)

Definition convertKey (key : metadata.IndexKeyPair) : backends.IndexKeyPair :=
  {| backends.Field := metadata.Field key;
     backends.Descending := metadata.Descending key |}.

Definition convertIndex (index : metadata.IndexInfo) : backends.IndexInfo :=
  {| backends.Name := metadata.Name index;
     backends.Unique := metadata.Unique index;
     backends.Key := map convertKey (metadata.Key index) |}.

(** [func(i, j int) bool { return res.Indexes[i].Name < res.Indexes[j].Name }],
    on the elements at [i] and [j]; Go compares strings bytewise. *)
Definition lessByName (a b : backends.IndexInfo) : bool :=
  String.ltb (backends.Name a) (backends.Name b).

Definition ListIndexes (c : collection)
  : M (World PG) backends.ListIndexesResult :=
  let* db := lazily "ListIndexes" (call (DatabaseGetExisting (dbName c))) in
  match db with
  | None =>
      fail (BackendError ErrorCodeCollectionDoesNotExist
              (noNamespace "ListIndexes" c))
  | Some db =>
      let* coll :=
        lazily "ListIndexes" (call (CollectionGet (dbName c) (name c))) in
      match coll with
      | None =>
          fail (BackendError ErrorCodeCollectionDoesNotExist
                  (noNamespace "ListIndexes" c))
      | Some coll =>
          let indexes := map convertIndex (metadata.Indexes coll) in
          ret {| backends.Indexes := sort_Slice lessByName indexes |}
      end
  end.

(** *** Reading the trace *)

(** The rows a round trip modified: [RowsAffected()] of an [Exec] that
    succeeded. *)
Definition rowsAffected (ev : Event) : Z :=
  match ev with
  | EvExec _ _ (Ok n) => n
  | _ => 0
  end.


(** [ev] is the single-row UPDATE of [UpdateAll] for [doc]: statement [q]
    with the serialised document and the serialised identifier, in that
    order, answered without an error. *)
Definition updateOf (q : string) (doc : Document) (ev : Event) : Prop :=
  exists (b arg_ : list Byte.byte) (id : Value) (n : Z),
    sjson_Marshal doc = Ok b /\
    Document_Get_id doc = Some id /\
    sjson_MarshalSingleValue id = Ok arg_ /\
    ev = EvExec q [ArgBytes b; ArgBytes arg_] (Ok n).

(** The running count of [UpdateAll]:
    [res.Updated += int32(tag.RowsAffected())]. *)
Definition countStep (acc : Z) (ev : Event) : Z :=
  add32 acc (int32 (rowsAffected ev)).

Definition isExecOk (ev : Event) : bool :=
  match ev with
  | EvExec _ _ (Ok _) => true
  | _ => false
  end.

Definition isExec (ev : Event) : bool :=
  match ev with
  | EvExec _ _ _ => true
  | _ => false
  end.

(** [ev] is the multi-row INSERT of [InsertAll] for [batch]: the statement
    and arguments [prepareInsertStatement] built from it, sent to the
    engine. *)
Definition insertOf (c : collection) (meta : metadata.Collection)
    (batch : list Document) (ev : Event) : Prop :=
  exists (q : string) (a : list arg) (r : result Z),
    prepareInsertStatement (dbName c) (metadata.TableName meta)
      (metadata.Capped meta) batch = Ok (q, a) /\
    ev = EvExec q a r.

(** What [InsertAll] returns for the error [e] of a failed [tx.Exec]. *)
Definition insertError (e : error) : error :=
  match errors_As_PgError e with
  | Some code =>
      if String.eqb code UniqueViolation
      then BackendError ErrorCodeInsertDuplicateID e
      else LazyError "InsertAll" e
  | None => LazyError "InsertAll" e
  end.

(** Consecutive batches: none is empty, none has more than [n] elements,
    and every one but the last has exactly [n]. *)
Fixpoint fullButLast {A : Type} (n : nat) (bs : list (list A)) : Prop :=
  match bs with
  | [] => True
  | b :: bs' =>
      match bs' with
      | [] => (1 <= length b <= n)%nat
      | _ :: _ => length b = n /\ fullButLast n bs'
      end
  end.

(** The partition of [l], in its order, into consecutive batches of
    [S m] elements, the last one possibly shorter. *)
Equations? chunks {A : Type} (m : nat) (l : list A) : list (list A)
  by wf (length l) lt :=
  chunks m [] := [];
  chunks m (x :: l) := firstn (S m) (x :: l) :: chunks m (skipn (S m) (x :: l)).
Proof.
  rewrite length_skipn. lia.
Qed.

(** [doc] can be sent as an update: it serialises and carries an
    identifier that serialises. *)
Definition updatable (doc : Document) : Prop :=
  exists (b arg_ : list Byte.byte) (id : Value),
    sjson_Marshal doc = Ok b /\
    Document_Get_id doc = Some id /\
    sjson_MarshalSingleValue id = Ok arg_.

(** *** Namespaces

    What the registry answers for the namespace of [c], from the engine
    state [g]; [g'] is the state the lookups leave. *)

(** The database or the collection does not exist. *)
Definition namespace_absent (c : collection) (g g' : PG) : Prop :=
  DatabaseGetExisting (dbName c) g = (g', Ok None) \/
  exists (g1 : PG) (p : Pool),
    DatabaseGetExisting (dbName c) g = (g1, Ok (Some p)) /\
    CollectionGet (dbName c) (name c) g1 = (g', Ok None).

(** [InsertAll] resolves its namespace after creating the collection:
    the creation succeeds, and then both exist. *)
Definition insert_namespace (c : collection) (g g' : PG) (p : Pool)
    (meta : metadata.Collection) : Prop :=
  exists (g0 g1 : PG) (created : bool),
    CollectionCreate {| metadata.DBName := dbName c;
                        metadata.CollectionName := name c |} g
      = (g0, Ok created) /\
    DatabaseGetExisting (dbName c) g0 = (g1, Ok (Some p)) /\
    CollectionGet (dbName c) (name c) g1 = (g', Ok (Some meta)).

(** Both exist: the pool is [p] and the collection's metadata [meta]. *)
Definition namespace_exists (c : collection) (g g' : PG) (p : Pool)
    (meta : metadata.Collection) : Prop :=
  exists g1 : PG,
    DatabaseGetExisting (dbName c) g = (g1, Ok (Some p)) /\
    CollectionGet (dbName c) (name c) g1 = (g', Ok (Some meta)).

(** What [sort.Slice] promises for [lessByName]: the slice is rearranged,
    and afterwards no element is less than its predecessor (what
    [sort.SliceIsSorted] checks).  Which of the rearrangements it is, the
    standard library does not say: the sort is not stable. *)
Definition sort_Slice_contract : Prop :=
  forall l : list backends.IndexInfo,
    Permutation l (sort_Slice lessByName l) /\
    Sorted (fun a b => lessByName b a = false) (sort_Slice lessByName l).

(** Ascending order of index names: [a] may come before [b]. *)
Definition nameLe (a b : backends.IndexInfo) : Prop :=
  String.leb (backends.Name a) (backends.Name b) = true.

(** [backends.ErrorCodeIs(err, ErrorCodeDatabaseDoesNotExist,
    ErrorCodeCollectionDoesNotExist)]: the error itself is inspected, not
    its chain. *)
Definition isDoesNotExist (err : error) : bool :=
  match err with
  | BackendError ErrorCodeCollectionDoesNotExist _ => true
  | BackendError ErrorCodeDatabaseDoesNotExist _ => true
  | _ => false
  end.

End Adapter.

End Postgresql.

(** ** Package [cursor]: client cursors *)

Module cursor.

(** [NewParams], with [Iter] possibly [nil]. *)
Record NewParams (Iter : Type) : Type := {
  Iter_ : option Iter;
  NewParams_DB : string;
  NewParams_Collection : string;
  NewParams_Username : string;
  ShowRecordID : bool
}.
Arguments Iter_ {Iter} _.
Arguments NewParams_DB {Iter} _.
Arguments NewParams_Collection {Iter} _.
Arguments NewParams_Username {Iter} _.
Arguments ShowRecordID {Iter} _.

(** [Cursor].  [iter] is the interface value, [None] for [nil]; [closed]
    tells whether the channel [closed] has been closed; [closeOnce] is the
    [done] flag of the [sync.Once]; the registry pointer [r] is the
    registry of the state below. *)
Record Cursor (Iter : Type) : Type := {
  created : Z;
  iter : option Iter;
  token : nat;
  closed : bool;
  DB : string;
  Collection : string;
  Username : string;
  ID : Z;
  closeOnce : bool;
  showRecordID : bool
}.
Arguments created {Iter} _.
Arguments iter {Iter} _.
Arguments token {Iter} _.
Arguments closed {Iter} _.
Arguments DB {Iter} _.
Arguments Collection {Iter} _.
Arguments Username {Iter} _.
Arguments ID {Iter} _.
Arguments closeOnce {Iter} _.
Arguments showRecordID {Iter} _.

(** The side effects of a teardown, as they happen; [IterClose it] is the
    call [it.Close()] on the wrapped iterator. *)
Inductive Effect (Iter : Type) : Type :=
| IterClose (it : Iter)
| RegistryDelete (id : Z)
| ChanClose (id : Z)
| Untrack (tok : nat).
Arguments IterClose {Iter} it.
Arguments RegistryDelete {Iter} id.
Arguments ChanClose {Iter} id.
Arguments Untrack {Iter} tok.

(** What cursors share: the keys of the registry's directory [r.m], the
    tokens package [resource] tracks, the next token [resource.NewToken]
    hands out, and the effects so far, oldest first. *)
Record State (Iter : Type) : Type := {
  registry : gset Z;
  tracked : gset nat;
  nextToken : nat;
  effects : list (Effect Iter)
}.
Arguments registry {Iter} _.
Arguments tracked {Iter} _.
Arguments nextToken {Iter} _.
Arguments effects {Iter} _.

(** [types.DocumentsIterator], the interface of the wrapped iterator, and
    what [Next] needs of [types.Document]. *)
Class DocumentsIterator (Document Iter : Type) : Type := {
  iter_Next : Iter -> Iter * (option Document * option error);
  (** [doc.Set("$recordId", doc.RecordID())]. *)
  Document_Set_recordId : Document -> Document
}.

Section Cursor.

Context {Document Iter : Type} {I : DocumentsIterator Document Iter}.

Definition emit (e : Effect Iter) (s : State Iter) : State Iter :=
  {| registry := registry s; tracked := tracked s;
     nextToken := nextToken s; effects := effects s ++ [e] |}.

(** Modelled from the spec: [resource.NewToken] and [resource.Track] are
    declared outside the files at hand.  Every created cursor registers a
    token at creation. *)
Definition resource_Track (s : State Iter) : nat * State Iter :=
  (nextToken s,
   {| registry := registry s;
      tracked := {[nextToken s]} ∪ tracked s;
      nextToken := S (nextToken s);
      effects := effects s |}).

(** Modelled from the spec: [resource.Untrack] is declared outside the
    files at hand.  The cursor deregisters its token at close. *)
Definition resource_Untrack (tok : nat) (s : State Iter) : State Iter :=
  emit (Untrack tok)
    {| registry := registry s;
       tracked := tracked s ∖ {[tok]};
       nextToken := nextToken s;
       effects := effects s |}.

(** Modelled from the spec: [Registry.delete] is declared outside the
    files at hand.  It removes a cursor from the directory. *)
Definition Registry_delete (c : Cursor Iter) (s : State Iter) : State Iter :=
  emit (RegistryDelete (ID c))
    {| registry := registry s ∖ {[ID c]};
       tracked := tracked s;
       nextToken := nextToken s;
       effects := effects s |}.

(** [newCursor]; [now] is [time.Now()]. *)
Definition newCursor (id : Z) (params : NewParams Iter) (now : Z)
    (s : State Iter) : Cursor Iter * State Iter :=
  let (tok, s') := resource_Track s in
  ({| ID := id;
      DB := NewParams_DB params;
      Collection := NewParams_Collection params;
      Username := NewParams_Username params;
      showRecordID := ShowRecordID params;
      iter := Iter_ params;
      created := now;
      closed := false;
      token := tok;
      closeOnce := false |}, s').

(** [Next]. *)
Definition Next (c : Cursor Iter)
  : Cursor Iter * outcome (option Document * option error) :=
  match iter c with
  | None => (c, Panic nilDereference)
  | Some it =>
      let '(it', (doc, err)) := iter_Next it in
      let doc :=
        match doc with
        | Some d => if showRecordID c then Some (Document_Set_recordId d)
                    else Some d
        | None => None
        end in
      ({| created := created c; iter := Some it'; token := token c;
          closed := closed c; DB := DB c; Collection := Collection c;
          Username := Username c; ID := ID c; closeOnce := closeOnce c;
          showRecordID := showRecordID c |},
       Done (doc, err))
  end.

Definition with_closeOnce (c : Cursor Iter) : Cursor Iter :=
  {| created := created c; iter := iter c; token := token c;
     closed := closed c; DB := DB c; Collection := Collection c;
     Username := Username c; ID := ID c; closeOnce := true;
     showRecordID := showRecordID c |}.

Definition with_iter_nil (c : Cursor Iter) : Cursor Iter :=
  {| created := created c; iter := None; token := token c;
     closed := closed c; DB := DB c; Collection := Collection c;
     Username := Username c; ID := ID c; closeOnce := closeOnce c;
     showRecordID := showRecordID c |}.

Definition with_closed (c : Cursor Iter) : Cursor Iter :=
  {| created := created c; iter := iter c; token := token c;
     closed := true; DB := DB c; Collection := Collection c;
     Username := Username c; ID := ID c; closeOnce := closeOnce c;
     showRecordID := showRecordID c |}.

(** The function given to [closeOnce.Do]: a method call on a [nil]
    interface value panics, and so does closing a closed channel. *)
Definition teardown (c : Cursor Iter) (s : State Iter)
  : Cursor Iter * State Iter * outcome unit :=
  match iter c with
  | None => (c, s, Panic nilDereference)
  | Some it =>
      let s := emit (IterClose it) s in
      let c := with_iter_nil c in
      let s := Registry_delete c s in
      if closed c then (c, s, Panic "close of closed channel")
      else
        let c := with_closed c in
        let s := emit (ChanClose (ID c)) s in
        let s := resource_Untrack (token c) s in
        (c, s, Done tt)
  end.

(** [Close]: [sync.Once.Do] runs its function when [done] is not set, and
    sets [done] when the function returns or panics. *)
Definition Close (c : Cursor Iter) (s : State Iter)
  : Cursor Iter * State Iter * outcome unit :=
  if closeOnce c then (c, s, Done tt)
  else
    let '(c', s', r) := teardown c s in
    (with_closeOnce c', s', r).

(** [n] invocations of [Close] in a row; a panic of one is recovered by
    its caller and the next invocation goes ahead. *)
Fixpoint CloseN (n : nat) (c : Cursor Iter) (s : State Iter)
  : Cursor Iter * State Iter :=
  match n with
  | O => (c, s)
  | S n' => let '(c', s', _) := Close c s in CloseN n' c' s'
  end.

End Cursor.

End cursor.

(** ** Package [postgresql]: the other methods of [collection] *)

Module PostgresqlMore.

Import Postgresql.

(** [backends.DeleteAllParams]: [RecordIDs] is [None] for a [nil] slice. *)
Record DeleteAllParams (Value : Type) : Type := {
  IDs : list Value;
  RecordIDs : option (list Z)
}.
Arguments IDs {Value} _.
Arguments RecordIDs {Value} _.

Record DeleteAllResult : Set := {
  Deleted : Z
}.

Record CreateIndexesParams : Set := {
  CreateIndexes_Indexes : list backends.IndexInfo
}.

Record CreateIndexesResult : Set := { }.

Record DropIndexesParams : Set := {
  DropIndexes_Indexes : list string
}.

Record DropIndexesResult : Set := { }.

(** What these methods call beyond the collaborators of [Postgresql]: the
    constant [metadata.RecordIDColumn] and two methods of the registry. *)
Class IndexRegistry (PG : Type) : Type := {
  RecordIDColumn : string;
  IndexesCreate :
    string -> string -> list metadata.IndexInfo -> PG -> PG * result unit;
  IndexesDrop : string -> string -> list string -> PG -> PG * result unit
}.

Section Methods.

Context {Document Value Row Pool PG : Type}.
Context {env : Collaborators Document Value Row Pool PG}.
Context {reg : IndexRegistry PG}.

(** *** [DeleteAll] *)

(** [for i, id := range params.IDs { placeholders[i] = placeholder.Next();
    args[i] = string(must.NotFail(sjson.MarshalSingleValue(id))) }]: the two
    slices, filled from index 0 on. *)
Fixpoint placeholdersByID (placeholder : metadata.Placeholder)
    (ids : list Value) : outcome (list string * list arg) :=
  match ids with
  | [] => Done ([], [])
  | id :: ids' =>
      let (placeholder', marker) := metadata.Next placeholder in
      match sjson_MarshalSingleValue id with
      | Err _ => Panic "must.NotFail"
      | Ok b =>
          match placeholdersByID placeholder' ids' with
          | Done (placeholders, args) =>
              Done (marker :: placeholders,
                    ArgString (string_of_list_byte b) :: args)
          | Fail e => Fail e
          | Panic msg => Panic msg
          end
      end
  end.

(** [for i, id := range params.RecordIDs { placeholders[i] = placeholder.Next();
    args[i] = id }]. *)
Fixpoint placeholdersByRecordID (placeholder : metadata.Placeholder)
    (ids : list Z) : list string * list arg :=
  match ids with
  | [] => ([], [])
  | id :: ids' =>
      let (placeholder', marker) := metadata.Next placeholder in
      let (placeholders, args) := placeholdersByRecordID placeholder' ids' in
      (marker :: placeholders, ArgInt64 id :: args)
  end.

Definition deleteStatement (c : collection) (meta : metadata.Collection)
    (column : string) (placeholders : list string) : string :=
  "DELETE FROM " +:+ Sanitize [dbName c; metadata.TableName meta]
    +:+ " WHERE " +:+ column
    +:+ " IN (" +:+ String.concat ", " placeholders +:+ ")".

Definition DeleteAll (c : collection) (params : DeleteAllParams Value)
  : M (World PG) DeleteAllResult :=
  let* p := lazily "DeleteAll" (call (DatabaseGetExisting (dbName c))) in
  match p with
  | None => ret {| Deleted := 0 |}
  | Some p =>
      let* meta := lazily "DeleteAll" (call (CollectionGet (dbName c) (name c))) in
      match meta with
      | None => ret {| Deleted := 0 |}
      | Some meta =>
          let built :=
            match RecordIDs params with
            | None =>
                match placeholdersByID metadata.zero (IDs params) with
                | Done (placeholders, args) => Done (IDColumn, placeholders, args)
                | Fail e => Fail e
                | Panic msg => Panic msg
                end
            | Some recordIDs =>
                let (placeholders, args) :=
                  placeholdersByRecordID metadata.zero recordIDs in
                Done (RecordIDColumn, placeholders, args)
            end in
          match built with
          | Done (column, placeholders, args) =>
              let q := deleteStatement c meta column placeholders in
              let* res := lazily "DeleteAll" (Exec p q args) in
              ret {| Deleted := int32 res |}
          | Fail e => fail e
          | Panic msg => panic msg
          end
      end
  end.

(** *** [CreateIndexes] and [DropIndexes] *)

Definition toMetadataKey (key : backends.IndexKeyPair) : metadata.IndexKeyPair :=
  {| metadata.Field := backends.Field key;
     metadata.Descending := backends.Descending key |}.

(** [metadata.IndexInfo{Name: ..., Key: ..., Unique: ...}]: [PgIndex] keeps
    its zero value. *)
Definition toMetadataIndex (index : backends.IndexInfo) : metadata.IndexInfo :=
  {| metadata.Name := backends.Name index;
     metadata.PgIndex := EmptyString;
     metadata.Key := map toMetadataKey (backends.Key index);
     metadata.Unique := backends.Unique index |}.

Definition CreateIndexes (c : collection) (params : CreateIndexesParams)
  : M (World PG) CreateIndexesResult :=
  let indexes := map toMetadataIndex (CreateIndexes_Indexes params) in
  let* _ := lazily "CreateIndexes"
              (call (IndexesCreate (dbName c) (name c) indexes)) in
  ret Build_CreateIndexesResult.

Definition DropIndexes (c : collection) (params : DropIndexesParams)
  : M (World PG) DropIndexesResult :=
  let* _ := lazily "DropIndexes"
              (call (IndexesDrop (dbName c) (name c)
                       (DropIndexes_Indexes params))) in
  ret Build_DropIndexesResult.

(** *** Reading statements *)

(** [err] is [lazyerrors.Error(e)] made in [caller], for some [e]. *)
Definition wrappedIn (caller : string) (err : error) : Prop :=
  exists e : error, err = LazyError caller e.

(** *** Where a returned error comes from *)

(** [e] is the error [DatabaseGetExisting] returns for the database of [c]
    in the engine [g]. *)
Definition databaseLookupError (c : collection) (g : PG) (e : error) : Prop :=
  exists g' : PG, DatabaseGetExisting (dbName c) g = (g', Err e).

(** The database of [c] is found in the engine [g], and [e] is the error
    [CollectionGet] returns then for the collection of [c]. *)
Definition collectionLookupError (c : collection) (g : PG) (e : error)
  : Prop :=
  exists (g1 : PG) (p : Pool) (g' : PG),
    DatabaseGetExisting (dbName c) g = (g1, Ok (Some p)) /\
    CollectionGet (dbName c) (name c) g1 = (g', Err e).

(** [e] is the error of the engine for a [Query], the one round trip
    between [w] and [w']. *)
Definition refusedQuery (e : error) (w w' : World PG) : Prop :=
  exists (p : Pool) (q : string) (a : list arg) (g g' : PG),
    pgx_Query p q a g = (g', Err e) /\
    trace w' = trace w ++ [EvQuery q a].

(** [e] is the error of the engine for a [QueryRow] and its [Scan], the one
    round trip between [w] and [w']. *)
Definition refusedQueryRow (e : error) (w w' : World PG) : Prop :=
  exists (p : Pool) (q : string) (a : list arg) (g g' : PG),
    pgx_QueryRow_Scan p q a g = (g', Err e) /\
    trace w' = trace w ++ [EvQueryRow q a].

(** [e] is the error of the engine for an [Exec]: between [w] and [w'] the
    round trips are [pre], that [Exec], and [post]. *)
Definition refusedExec (e : error) (w w' : World PG) (pre post : list Event)
  : Prop :=
  exists (p : Pool) (q : string) (a : list arg) (g g' : PG),
    pgx_Exec p q a g = (g', Err e) /\
    trace w' = trace w ++ pre ++ EvExec q a (Err e) :: post.

(** [e] is the error of the engine for the begin of the one transaction
    between [w] and [w'], or for its commit. *)
Definition transactionError (e : error) (w w' : World PG) : Prop :=
  exists (p : Pool) (g : PG),
    (pgx_Begin p g = Some e /\ trace w' = trace w ++ [EvBegin (Some e)]) \/
    (pgx_Commit p g = Some e /\
     exists evs : list Event,
       trace w' = trace w ++ EvBegin None :: evs
                    ++ [EvCommit (Some e); EvRollback]).

(** The registry stored [index] as [stored]: the same name, key and
    uniqueness, under a physical index name of its choice. *)
Definition storedAs (index : backends.IndexInfo) (stored : metadata.IndexInfo)
  : Prop :=
  metadata.Name stored = backends.Name index /\
  metadata.Key stored = map toMetadataKey (backends.Key index) /\
  metadata.Unique stored = backends.Unique index.

(** What [DeleteAll] returns for the answer [r] of the engine: the rows
    affected as an [int32], or the error wrapped. *)
Definition deleteOutcome (r : result Z) : outcome DeleteAllResult :=
  match r with
  | Ok n => Done {| Deleted := int32 n |}
  | Err e => Fail (LazyError "DeleteAll" e)
  end.

(** The marker [$n]. *)
Definition markerOf (n : nat) : string :=
  String "$" (NilEmpty.string_of_uint (Nat.to_uint n)).

(** The round trip of [Explain] for the round trip [ev] of [Query]: the
    same statement behind the plan-explanation prefix, with the same
    arguments. *)
Definition explainOf (ev : Event) : Event :=
  match ev with
  | EvQuery q args =>
      EvQueryRow ("EXPLAIN (VERBOSE true, FORMAT JSON) " +:+ q) args
  | _ => ev
  end.




(** The markers [$from], [$from+1], ..., [n] of them. *)
Definition markers (from n : nat) : list string :=
  map (fun k => snd (metadata.Next k)) (seq from n).

End Methods.

End PostgresqlMore.

(** ** Package [handler]: the [listCollections] command

    [MsgListCollections], which lists the collections of a database through
    the backend. *)

Module handler.

(** An error a handler returns: a command error made by
    [handlererrors.NewCommandErrorMsgWithArgument], or any other error. *)
Inductive herror (Code : Type) : Type :=
| CommandError (code : Code) (msg : string) (argument : string)
| OtherError (e : error).
Arguments CommandError {Code} code msg argument.
Arguments OtherError {Code} e.

Inductive hresult (Code A : Type) : Type :=
| HOk (a : A)
| HErr (e : herror Code).
Arguments HOk {Code A} a.
Arguments HErr {Code A} e.

(** [backends.CollectionInfo], the fields the command reads. *)
Record CollectionInfo : Set := {
  Name : string;
  UUID : string
}.

(** The document of the reply: [cursor.id], [cursor.ns],
    [cursor.firstBatch] and [ok], which is the number one. *)
Record Reply (Document : Type) : Type := {
  cursor_id : Z;
  cursor_ns : string;
  cursor_firstBatch : list Document;
  ok : Z
}.
Arguments cursor_id {Document} _.
Arguments cursor_ns {Document} _.
Arguments cursor_firstBatch {Document} _.
Arguments ok {Document} _.

(** What the command calls outside its own body.  [Msg] is [wire.OpMsg],
    [Database] the handle [h.b.Database] returns, [W] the state behind the
    backend. *)
Class Collaborators (Msg Document Value Uuid Database Code W : Type) : Type := {
  msg_Document : Msg -> result Document;
  (** [common.GetOptionalParam(document, "filter", filter)], the default
      being [nil]. *)
  GetOptionalParam_filter : Document -> hresult Code (option Document);
  (** [common.GetRequiredParam[string](document, "$db")]. *)
  GetRequiredParam_db : Document -> hresult Code string;
  (** [document.Get("nameOnly")] with its error dropped. *)
  Document_Get_nameOnly : Document -> option Value;
  (** [handlerparams.GetBoolOptionalParam("nameOnly", v)]. *)
  GetBoolOptionalParam_nameOnly : Value -> hresult Code bool;
  Backend_Database : string -> result Database;
  (** [backends.ErrorCodeIs(err, backends.ErrorCodeDatabaseNameIsInvalid)]. *)
  isDatabaseNameInvalid : error -> bool;
  ErrInvalidNamespace : Code;
  Database_ListCollections : Database -> W -> W * result (list CollectionInfo);
  (** [types.NewDocument("name", name, "type", "collection")]. *)
  collectionDocument : string -> Document;
  (** [types.NewDocument("name", name)]. *)
  nameDocument : string -> Document;
  uuid_Parse : string -> result Uuid;
  (** [d.SetByPath(info.uuid, types.Binary{Subtype: types.BinaryUUID,
      B: uuid.MarshalBinary()})]. *)
  withUUID : Document -> Uuid -> Document;
  (** [common.FilterDocument(d, filter)]. *)
  FilterDocument : Document -> option Document -> result bool
}.

Section Handler.

Context {Msg Document Value Uuid Database Code W : Type}.
Context {env : Collaborators Msg Document Value Uuid Database Code W}.

Definition lazyError (e : error) : herror Code :=
  OtherError (LazyError "MsgListCollections" e).

(** The loop [for _, collection := range res.Collections]; [collections] is
    the array built so far. *)
Fixpoint listLoop (filter : option Document) (nameOnly : bool)
    (cols : list CollectionInfo) (collections : list Document)
  : hresult Code (list Document) :=
  match cols with
  | [] => HOk collections
  | collection :: cols' =>
      let d := collectionDocument (Name collection) in
      let parsed :=
        if String.eqb (UUID collection) EmptyString then Ok d
        else match uuid_Parse (UUID collection) with
             | Ok uuid => Ok (withUUID d uuid)
             | Err e => Err e
             end in
      match parsed with
      | Err e => HErr (lazyError e)
      | Ok d =>
          match FilterDocument d filter with
          | Err e => HErr (lazyError e)
          | Ok false => listLoop filter nameOnly cols' collections
          | Ok true =>
              let d := if nameOnly then nameDocument (Name collection) else d in
              listLoop filter nameOnly cols' (collections ++ [d])
          end
      end
  end.

Definition MsgListCollections (msg : Msg) (w : W)
  : W * hresult Code (Reply Document) :=
  match msg_Document msg with
  | Err e => (w, HErr (lazyError e))
  | Ok document =>
      match GetOptionalParam_filter document with
      | HErr e => (w, HErr e)
      | HOk filter =>
          match GetRequiredParam_db document with
          | HErr e => (w, HErr e)
          | HOk dbName =>
              let nameOnly :=
                match Document_Get_nameOnly document with
                | None => HOk false
                | Some v => GetBoolOptionalParam_nameOnly v
                end in
              match nameOnly with
              | HErr e => (w, HErr e)
              | HOk nameOnly =>
                  match Backend_Database dbName with
                  | Err e =>
                      if isDatabaseNameInvalid e
                      then (w, HErr (CommandError ErrInvalidNamespace
                                       ("Invalid namespace specified '"
                                          +:+ dbName +:+ "'")
                                       "listCollections"))
                      else (w, HErr (lazyError e))
                  | Ok db =>
                      match Database_ListCollections db w with
                      | (w', Err e) => (w', HErr (lazyError e))
                      | (w', Ok res) =>
                          match listLoop filter nameOnly res [] with
                          | HErr e => (w', HErr e)
                          | HOk collections =>
                              (w', HOk {| cursor_id := 0;
                                          cursor_ns :=
                                            dbName +:+ ".$cmd.listCollections";
                                          cursor_firstBatch := collections;
                                          ok := 1 |})
                          end
                      end
                  end
              end
          end
      end
  end.

(** *** Reading the listing *)

(** The document the filter is applied to: the name and the type, and the
    UUID when the collection has one that parses. *)
Definition fullDocument (collection : CollectionInfo) : Document :=
  let d := collectionDocument (Name collection) in
  if String.eqb (UUID collection) EmptyString then d
  else match uuid_Parse (UUID collection) with
       | Ok uuid => withUUID d uuid
       | Err _ => d
       end.

(** The filter accepts the collection. *)
Definition accepted (filter : option Document) (collection : CollectionInfo)
  : bool :=
  match FilterDocument (fullDocument collection) filter with
  | Ok true => true
  | _ => false
  end.

(** The document listed for a collection. *)
Definition listed (nameOnly : bool) (collection : CollectionInfo) : Document :=
  if nameOnly then nameDocument (Name collection) else fullDocument collection.

(** The command could be read: the request decodes to [document], with the
    filter, the database name and the [nameOnly] flag given. *)
Definition request (msg : Msg) (filter : option Document) (dbName : string)
    (nameOnly : bool) : Prop :=
  exists document : Document,
    msg_Document msg = Ok document /\
    GetOptionalParam_filter document = HOk filter /\
    GetRequiredParam_db document = HOk dbName /\
    match Document_Get_nameOnly document with
    | None => nameOnly = false
    | Some v => GetBoolOptionalParam_nameOnly v = HOk nameOnly
    end.

(** The UUID of the collection is malformed. *)
Definition malformedUUID (collection : CollectionInfo) : Prop :=
  UUID collection <> EmptyString /\
  exists e : error, uuid_Parse (UUID collection) = Err e.

(** The collection can be listed: its UUID, if any, parses, and the filter
    evaluates on its document. *)
Definition listable (filter : option Document) (collection : CollectionInfo)
  : Prop :=
  ~ malformedUUID collection /\
  exists b : bool, FilterDocument (fullDocument collection) filter = Ok b.

End Handler.

End handler.

(** ** A small engine to run the adapter on

    An in-memory stand-in for the collaborators: documents are an optional
    integer identifier and a body, the engine stores identifiers in one
    table, and the catalog is in one of four conditions.  It is used to run
    the adapter and the cursors on concrete inputs. *)

Module Sample.

Import Postgresql.

Record Doc : Set := {
  doc_id : option Z;
  doc_body : list Byte.byte
}.

Inductive Catalog : Set :=
| Unreachable
| NoDatabase
| NoCollection
| Ready.

Record Store : Set := {
  catalog : Catalog;
  ids : list Z
}.

Definition index (n : string) : metadata.IndexInfo :=
  {| metadata.Name := n; metadata.PgIndex := n +:+ "_pg";
     metadata.Key := [{| metadata.Field := "v"; metadata.Descending := false |}];
     metadata.Unique := false |}.

Definition meta : metadata.Collection :=
  {| metadata.TableName := "users_1";
     metadata.Indexes := [index "b_idx"; index "a_idx"; index "c_idx"];
     metadata.Capped := false |}.

(** Identifiers are serialised in unary. *)
Definition encode (id : Z) : list Byte.byte := repeat Byte.x01 (Z.to_nat id).
Definition decode (b : list Byte.byte) : Z := Z.of_nat (length b).

Definition stored (g : Store) (id : Z) : bool := existsb (Z.eqb id) (ids g).

Definition idOfArg (a : arg) : Z :=
  match a with
  | ArgInt64 n => n
  | ArgBytes b => decode b
  | ArgString _ => 0
  end.

(** INSERT fails with a uniqueness violation when an identifier is stored
    already; UPDATE modifies the row of the identifier, if there is one. *)
Definition exec (q : string) (args : list arg) (g : Store) : Store * result Z :=
  if String.eqb q "INSERT" then
    if existsb (fun a => stored g (idOfArg a)) args
    then (g, Err (PgError UniqueViolation))
    else ({| catalog := catalog g; ids := ids g ++ map idOfArg args |},
          Ok (Z.of_nat (length args)))
  else if String.prefix "UPDATE" q then
    match args with
    | [_; id] => (g, Ok (if stored g (idOfArg id) then 1 else 0))
    | _ => (g, Ok 0)
    end
  else (g, Ok 0).

(** Insertion sort, as a [sort.Slice]. *)
Fixpoint insert {A : Type} (less : A -> A -> bool) (x : A) (l : list A)
  : list A :=
  match l with
  | [] => [x]
  | y :: l' => if less x y then x :: y :: l' else y :: insert less x l'
  end.

Definition insertionSort {A : Type} (less : A -> A -> bool) (l : list A)
  : list A :=
  fold_right (insert less) [] l.

#[local] Instance env : Collaborators Doc Z (string * Z) unit Store := {|
  NewDocument := {| doc_id := None; doc_body := [] |};
  Document_Get_id := doc_id;
  sjson_Marshal := fun d => Ok (doc_body d);
  sjson_MarshalSingleValue := fun id => Ok (encode id);
  Sanitize := fun parts => String.concat "." parts;
  DefaultColumn := "_jsonb";
  IDColumn := "_id";
  prepareSelectClause := fun sp => "SELECT _jsonb FROM " +:+ Table sp;
  prepareWhereClause := fun ph filter =>
    match filter with
    | None => (ph, Ok (EmptyString, []))
    | Some d =>
        let (ph', marker) := metadata.Next ph in
        (ph', Ok (" WHERE _id = " +:+ marker,
                  [ArgInt64 (default 0 (doc_id d))]))
    end;
  prepareOrderByClause := fun ph sort capped =>
    match sort with
    | None => (ph, (EmptyString, []))
    | Some _ => (ph, (" ORDER BY _id", []))
    end;
  prepareInsertStatement := fun _ _ _ batch =>
    Ok ("INSERT", map (fun d => ArgInt64 (default 0 (doc_id d))) batch);
  unmarshalExplain := fun b => Ok {| doc_id := None; doc_body := b |};
  collectionsStats := fun _ _ _ _ g =>
    (g, Ok {| countDocuments := Z.of_nat (length (ids g));
              sizeIndexes := 0; sizeTables := 0; sizeFreeStorage := 0 |});
  Row_Scan_index := fun row => Ok row;
  DatabaseGetExisting := fun _ g =>
    match catalog g with
    | Unreachable => (g, Err (DriverError "connection refused"))
    | NoDatabase => (g, Ok None)
    | NoCollection | Ready => (g, Ok (Some tt))
    end;
  CollectionGet := fun _ _ g =>
    match catalog g with
    | Unreachable => (g, Err (DriverError "connection refused"))
    | NoDatabase | NoCollection => (g, Ok None)
    | Ready => (g, Ok (Some meta))
    end;
  CollectionCreate := fun _ g =>
    match catalog g with
    | Unreachable => (g, Err (DriverError "connection refused"))
    | NoDatabase | NoCollection =>
        ({| catalog := Ready; ids := ids g |}, Ok true)
    | Ready => (g, Ok false)
    end;
  pgx_Query := fun _ _ _ g =>
    (g, Ok {| rows_items := map (fun id => (EmptyString, id)) (ids g);
              rows_Err := None |});
  pgx_Exec := fun _ => exec;
  pgx_QueryRow_Scan := fun _ _ _ g => (g, Ok [Byte.x7b; Byte.x7d]);
  pgx_Begin := fun _ _ => None;
  pgx_Commit := fun _ _ => None;
  sort_Slice := insertionSort
|}.

Definition users : collection := {| dbName := "app"; name := "users" |}.

Definition world (cat : Catalog) (stored_ids : list Z) : World Store :=
  {| pg := {| catalog := cat; ids := stored_ids |}; trace := [] |}.

Definition doc (id : Z) : Doc := {| doc_id := Some id; doc_body := encode id |}.

(** Documents with the identifiers [from], [from + 1], ..., [n] of them. *)
Definition docsFrom (from : nat) (n : nat) : list Doc :=
  map (fun k => doc (Z.of_nat k)) (seq from n).

(** A wrapped iterator: the documents still to come. *)
#[local] Instance iterator : cursor.DocumentsIterator Z (list Z) := {|
  cursor.iter_Next := fun l =>
    match l with
    | [] => ([], (None, Some (DriverError "iterator is read to the end")))
    | d :: l' => (l', (Some d, None))
    end;
  cursor.Document_Set_recordId := fun d => d
|}.

Definition qparams : backends.QueryParams Doc :=
  {| backends.Filter := Some (doc 1); backends.Sort := None;
     backends.Limit := 2; backends.OnlyRecordIDs := false;
     backends.Comment := EmptyString |}.

Definition eparams : backends.ExplainParams Doc :=
  {| backends.Explain_Filter := Some (doc 1);
     backends.Explain_Sort := None;
     backends.Explain_Limit := 2 |}.

Definition emptyState : cursor.State (list Z) :=
  {| cursor.registry := {[7]}; cursor.tracked := ∅;
     cursor.nextToken := O; cursor.effects := [] |}.

Definition newParams : cursor.NewParams (list Z) :=
  {| cursor.Iter_ := Some [1; 2; 3];
     cursor.NewParams_DB := "app";
     cursor.NewParams_Collection := "users";
     cursor.NewParams_Username := EmptyString;
     cursor.ShowRecordID := false |}.

(** A cursor just created over three documents. *)
Definition fresh : cursor.Cursor (list Z) * cursor.State (list Z) :=
  cursor.newCursor 7 newParams 0 emptyState.

End Sample.

(** The registry of the sample engine accepts every index change. *)
Module SampleMore.

#[local] Instance registry : PostgresqlMore.IndexRegistry Sample.Store := {|
  PostgresqlMore.RecordIDColumn := "_ferretdb_record_id";
  PostgresqlMore.IndexesCreate := fun _ _ _ g => (g, Ok tt);
  PostgresqlMore.IndexesDrop := fun _ _ _ g => (g, Ok tt)
|}.

(** The sample engine with a serialiser that refuses negative
    identifiers. *)
#[local] Instance strict
  : Postgresql.Collaborators Sample.Doc Z (string * Z) unit Sample.Store := {|
  Postgresql.NewDocument := Postgresql.NewDocument (Collaborators := Sample.env);
  Postgresql.Document_Get_id := Sample.doc_id;
  Postgresql.sjson_Marshal :=
    Postgresql.sjson_Marshal (Collaborators := Sample.env);
  Postgresql.sjson_MarshalSingleValue := fun id =>
    if id <? 0 then Err (DriverError "negative identifier")
    else Ok (Sample.encode id);
  Postgresql.Sanitize := Postgresql.Sanitize (Collaborators := Sample.env);
  Postgresql.DefaultColumn :=
    Postgresql.DefaultColumn (Collaborators := Sample.env);
  Postgresql.IDColumn := Postgresql.IDColumn (Collaborators := Sample.env);
  Postgresql.prepareSelectClause :=
    Postgresql.prepareSelectClause (Collaborators := Sample.env);
  Postgresql.prepareWhereClause :=
    Postgresql.prepareWhereClause (Collaborators := Sample.env);
  Postgresql.prepareOrderByClause :=
    Postgresql.prepareOrderByClause (Collaborators := Sample.env);
  Postgresql.prepareInsertStatement :=
    Postgresql.prepareInsertStatement (Collaborators := Sample.env);
  Postgresql.unmarshalExplain :=
    Postgresql.unmarshalExplain (Collaborators := Sample.env);
  Postgresql.collectionsStats :=
    Postgresql.collectionsStats (Collaborators := Sample.env);
  Postgresql.Row_Scan_index :=
    Postgresql.Row_Scan_index (Collaborators := Sample.env);
  Postgresql.DatabaseGetExisting :=
    Postgresql.DatabaseGetExisting (Collaborators := Sample.env);
  Postgresql.CollectionGet :=
    Postgresql.CollectionGet (Collaborators := Sample.env);
  Postgresql.CollectionCreate :=
    Postgresql.CollectionCreate (Collaborators := Sample.env);
  Postgresql.pgx_Query := Postgresql.pgx_Query (Collaborators := Sample.env);
  Postgresql.pgx_Exec := Postgresql.pgx_Exec (Collaborators := Sample.env);
  Postgresql.pgx_QueryRow_Scan :=
    Postgresql.pgx_QueryRow_Scan (Collaborators := Sample.env);
  Postgresql.pgx_Begin := Postgresql.pgx_Begin (Collaborators := Sample.env);
  Postgresql.pgx_Commit := Postgresql.pgx_Commit (Collaborators := Sample.env);
  Postgresql.sort_Slice := Postgresql.sort_Slice (Collaborators := Sample.env)
|}.

Definition ready : Sample.Store :=
  {| Sample.catalog := Sample.Ready; Sample.ids := [1; 2] |}.

Definition byID : PostgresqlMore.DeleteAllParams Z :=
  {| PostgresqlMore.IDs := [1; 5]; PostgresqlMore.RecordIDs := None |}.

Definition byRecordID : PostgresqlMore.DeleteAllParams Z :=
  {| PostgresqlMore.IDs := [1; 5];
     PostgresqlMore.RecordIDs := Some [10; 11; 12] |}.

Definition created : PostgresqlMore.CreateIndexesParams :=
  {| PostgresqlMore.CreateIndexes_Indexes :=
       map Postgresql.convertIndex (metadata.Indexes Sample.meta) |}.

(** A document that serialises and has no identifier. *)
Definition anonymous : Sample.Doc :=
  {| Sample.doc_id := None; Sample.doc_body := [Byte.x7b; Byte.x7d] |}.

End SampleMore.

(** A small backend for the [listCollections] command: documents are lists
    of fields with string values, a filter accepts the documents that have
    all its fields, and the state is the list of collections. *)
Module SampleHandler.

Record Request : Set := {
  db : string;
  nameOnly : option bool;
  filter : option (list (string * string))
}.

Definition hasField (d : list (string * string)) (kv : string * string) : bool :=
  existsb (fun f => String.eqb (fst f) (fst kv) && String.eqb (snd f) (snd kv)) d.

#[local] Instance env
  : handler.Collaborators Request Request bool string string Z
      (list handler.CollectionInfo) := {|
  handler.msg_Document := fun msg => Ok msg;
  handler.GetOptionalParam_filter := fun document =>
    handler.HOk
      (option_map (fun f => {| db := EmptyString; nameOnly := None;
                               filter := Some f |}) (filter document));
  handler.GetRequiredParam_db := fun document => handler.HOk (db document);
  handler.Document_Get_nameOnly := nameOnly;
  handler.GetBoolOptionalParam_nameOnly := fun v => handler.HOk v;
  handler.Backend_Database := fun n =>
    if String.eqb n EmptyString
    then Err (DriverError "database name is invalid") else Ok n;
  handler.isDatabaseNameInvalid := fun e =>
    match e with
    | DriverError _ => true
    | _ => false
    end;
  handler.ErrInvalidNamespace := 73;
  handler.Database_ListCollections := fun _ w => (w, Ok w);
  handler.collectionDocument := fun n =>
    {| db := EmptyString; nameOnly := None;
       filter := Some [("name", n); ("type", "collection")] |};
  handler.nameDocument := fun n =>
    {| db := EmptyString; nameOnly := None; filter := Some [("name", n)] |};
  handler.uuid_Parse := fun u =>
    if (String.length u =? 36)%nat then Ok u
    else Err (DriverError "invalid UUID length");
  handler.withUUID := fun d u =>
    {| db := db d; nameOnly := nameOnly d;
       filter := option_map (fun f => f ++ [("info.uuid", u)]) (filter d) |};
  handler.FilterDocument := fun d f =>
    match f with
    | None => Ok true
    | Some f =>
        Ok (forallb (hasField (default [] (filter d))) (default [] (filter f)))
    end
|}.

Definition users : handler.CollectionInfo :=
  {| handler.Name := "users";
     handler.UUID := "6f8a3c1e-0b72-4d59-9f0e-2a4c8b1d7e35" |}.

Definition logs : handler.CollectionInfo :=
  {| handler.Name := "logs"; handler.UUID := EmptyString |}.


(** [listCollections] on database [app], names only, for the collection
    named [users]. *)
Definition request : Request :=
  {| db := "app"; nameOnly := Some true; filter := Some [("name", "users")] |}.

End SampleHandler.

(** * Fixed-width arithmetic *)


Lemma int32_range (x : Z) : - 2 ^ 31 <= int32 x < 2 ^ 31.
Proof.
  unfold int32.
  pose proof (Z.mod_pos_bound (x + 2 ^ 31) (2 ^ 32) ltac:(lia)). lia.
Qed.



(** * Bytewise order of strings *)

Lemma ascii_compare_lt_trans (a b c : ascii) :
  Ascii.compare a b = Lt -> Ascii.compare b c = Lt -> Ascii.compare a c = Lt.
Proof.
  unfold Ascii.compare. rewrite !N.compare_lt_iff. lia.
Qed.

Lemma string_compare_lt_trans (s1 : string) :
  forall s2 s3 : string,
    String.compare s1 s2 = Lt -> String.compare s2 s3 = Lt ->
    String.compare s1 s3 = Lt.
Proof.
  induction s1 as [| a s1 IH]; intros [| b s2] [| c s3]; simpl;
    try congruence.
  destruct (Ascii.compare a b) eqn:Hab; try discriminate;
    destruct (Ascii.compare b c) eqn:Hbc; try discriminate; intros H12 H23.
  - apply Ascii.compare_eq_iff in Hab, Hbc. subst.
    rewrite (proj2 (N.compare_eq_iff _ _) eq_refl : Ascii.compare c c = Eq).
    eauto.
  - apply Ascii.compare_eq_iff in Hab. subst. now rewrite Hbc.
  - apply Ascii.compare_eq_iff in Hbc. subst. now rewrite Hab.
  - now rewrite (ascii_compare_lt_trans _ _ _ Hab Hbc).
Qed.

Lemma string_compare_refl (s : string) : String.compare s s = Eq.
Proof.
  induction s as [| a s IH]; simpl; [reflexivity |].
  now rewrite (proj2 (N.compare_eq_iff _ _) eq_refl : Ascii.compare a a = Eq).
Qed.

Lemma string_leb_iff (s1 s2 : string) :
  String.leb s1 s2 = true <-> s1 = s2 \/ String.compare s1 s2 = Lt.
Proof.
  unfold String.leb. split.
  - destruct (String.compare s1 s2) eqn:H; try discriminate; intros _.
    + left. now apply String.compare_eq_iff.
    + now right.
  - intros [-> | ->]; [now rewrite string_compare_refl | reflexivity].
Qed.

Lemma string_leb_trans (s1 s2 s3 : string) :
  String.leb s1 s2 = true -> String.leb s2 s3 = true -> String.leb s1 s3 = true.
Proof.
  rewrite !string_leb_iff.
  intros [-> | H12] [-> | H23]; eauto using string_compare_lt_trans.
Qed.

Lemma string_ltb_false_leb (s1 s2 : string) :
  String.ltb s2 s1 = false <-> String.leb s1 s2 = true.
Proof.
  unfold String.ltb, String.leb.
  rewrite (String.compare_antisym s1 s2).
  destruct (String.compare s2 s1); simpl; split; congruence.
Qed.

(** Two sorted arrangements of the same strings are the same list. *)
Lemma sorted_strings_unique (l1 : list string) :
  forall l2 : list string,
    Permutation l1 l2 ->
    StronglySorted (fun a b => String.leb a b = true) l1 ->
    StronglySorted (fun a b => String.leb a b = true) l2 ->
    l1 = l2.
Proof.
  induction l1 as [| x l1 IH]; intros l2 Hp H1 H2.
  - now apply Permutation_nil in Hp.
  - destruct l2 as [| y l2].
    + now apply Permutation_sym, Permutation_nil in Hp.
    + inversion H1 as [| ? ? Hs1 Hx]; subst.
      inversion H2 as [| ? ? Hs2 Hy]; subst.
      assert (Hxy : x = y).
      { assert (Hin1 : In y (x :: l1))
          by (eapply Permutation_in; [symmetry; exact Hp | now left]).
        assert (Hin2 : In x (y :: l2))
          by (eapply Permutation_in; [exact Hp | now left]).
        destruct Hin1 as [-> | Hin1]; [reflexivity |].
        destruct Hin2 as [<- | Hin2]; [reflexivity |].
        rewrite List.Forall_forall in Hx, Hy.
        apply String.leb_antisym; auto. }
      subst y. f_equal.
      apply IH; auto. eapply Permutation_cons_inv; eauto.
Qed.

(** * Properties of the collection adapter *)

Section AdapterFacts.

Import Postgresql.

Context {Document Value Row Pool PG : Type}.
Context {env : Collaborators Document Value Row Pool PG}.

(** Unfolds the monadic plumbing of an adapter call. *)
Ltac run := unfold bind, lazily, call, ret, fail, of_result; simpl.

(** C3. A [Query] on a database or collection that does not exist succeeds
    and returns a result whose iterator is built over no rows; nothing is
    sent to the engine. *)
Theorem Query_absent_namespace (c : collection)
    (params : backends.QueryParams Document) (w : World PG) (g' : PG) :
  namespace_absent c (pg w) g' ->
  exists res : QueryResult Row,
    Query c params w = ({| pg := g'; trace := trace w |}, Done res) /\
    iter_rows (Iter res) = None /\
    rows_of (Iter res) = [].
Proof.
  intros [Hdb | (g1 & p & Hdb & Hcoll)];
    eexists; unfold Query; run; rewrite Hdb; simpl.
  - repeat split.
  - rewrite Hcoll. simpl. repeat split.
Qed.

(** C4. [Stats], [Compact] and [ListIndexes] on a database or collection
    that does not exist each return an error, and the error is of a
    does-not-exist kind. *)
Theorem Stats_Compact_ListIndexes_absent_namespace (c : collection)
    (sparams : backends.CollectionStatsParams)
    (cparams : option backends.CompactParams) (w : World PG) (g' : PG) :
  namespace_absent c (pg w) g' ->
  (exists e, Stats c sparams w = ({| pg := g'; trace := trace w |}, Fail e) /\
             isDoesNotExist e = true) /\
  (exists e, Compact c cparams w = ({| pg := g'; trace := trace w |}, Fail e) /\
             isDoesNotExist e = true) /\
  (exists e, ListIndexes c w = ({| pg := g'; trace := trace w |}, Fail e) /\
             isDoesNotExist e = true).
Proof.
  intros [Hdb | (g1 & p & Hdb & Hcoll)]; repeat split;
    eexists; unfold Stats, Compact, ListIndexes; run; rewrite Hdb; simpl;
    try (rewrite Hcoll; simpl); split; reflexivity.
Qed.

(** C2, at the input where the code departs from it. When resolving the
    database handle fails, [Explain] returns a successful empty result and
    the error is lost, while [Query] on the same state returns the error
    wrapped by [lazyerrors.Error]. *)
Theorem Explain_discards_database_error (c : collection)
    (eparams : backends.ExplainParams Document)
    (qparams : backends.QueryParams Document) (w : World PG) (g' : PG)
    (e : error) :
  DatabaseGetExisting (dbName c) (pg w) = (g', Err e) ->
  Explain c eparams w
    = ({| pg := g'; trace := trace w |}, Done emptyExplainResult) /\
  Query c qparams w
    = ({| pg := g'; trace := trace w |}, Fail (LazyError "Query" e)).
Proof.
  intros Hdb. unfold Explain, Query. run. rewrite Hdb. simpl. split; reflexivity.
Qed.

(** C8. On an existing namespace, whenever [Explain] returns a result, its
    [FilterPushdown] is true iff the WHERE fragment is not empty, its
    [SortPushdown] is true iff the ORDER BY fragment is not empty, and its
    [LimitPushdown] is true iff the limit is not zero; and it returns a
    result whenever the engine answers the plan query with a plan that
    decodes. *)
Theorem Explain_pushdown_flags (c : collection)
    (params : backends.ExplainParams Document) (w : World PG) (g' : PG)
    (p : Pool) (meta : metadata.Collection) (ph : metadata.Placeholder)
    (where_ : string) (args : list arg) :
  namespace_exists c (pg w) g' p meta ->
  prepareWhereClause metadata.zero (backends.Explain_Filter params)
    = (ph, Ok (where_, args)) ->
  let sort :=
    fst (snd (prepareOrderByClause ph (backends.Explain_Sort params)
                (metadata.Capped meta))) in
  (forall (w' : World PG) (res : backends.ExplainResult Document),
      Explain c params w = (w', Done res) ->
      (backends.FilterPushdown res = true <-> where_ <> EmptyString) /\
      (backends.SortPushdown res = true <-> sort <> EmptyString) /\
      (backends.LimitPushdown res = true <->
         backends.Explain_Limit params <> 0)) /\
  ((forall (q : string) (a : list arg),
       exists (g'' : PG) (b : list Byte.byte) (plan : Document),
         pgx_QueryRow_Scan p q a g' = (g'', Ok b) /\
         unmarshalExplain b = Ok plan) ->
   exists (w' : World PG) (res : backends.ExplainResult Document),
     Explain c params w = (w', Done res)).
Proof.
  intros (g1 & Hdb & Hcoll) Hwhere sort.
  assert (Hflag : forall s : string, negb (String.eqb s EmptyString) = true <-> s <> EmptyString).
  { intros s. rewrite negb_true_iff. apply String.eqb_neq. }
  unfold Explain. run. rewrite Hdb. simpl. rewrite Hcoll. simpl.
  rewrite Hwhere. subst sort.
  destruct (prepareOrderByClause ph (backends.Explain_Sort params)
              (metadata.Capped meta)) as [ph' [sort sortArgs]]. simpl.
  destruct (Z.eqb_spec (backends.Explain_Limit params) 0) as [Hlim | Hlim];
    unfold QueryRow_Scan; simpl.
  - split.
    + intros w' res.
      destruct (pgx_QueryRow_Scan _ _ _ _) as [g'' [b | e]]; simpl;
        [| discriminate].
      destruct (unmarshalExplain b) as [plan | e]; simpl; [| discriminate].
      intros [= <- <-]. simpl. rewrite !Hflag. repeat split; auto; try congruence.
    + intros Hplan.
      match goal with
      | |- context [pgx_QueryRow_Scan p ?q ?a g'] =>
          destruct (Hplan q a) as (g'' & b & plan & -> & Hb)
      end.
      simpl. rewrite Hb. simpl. eauto.
  - split.
    + intros w' res.
      destruct (pgx_QueryRow_Scan _ _ _ _) as [g'' [b | e]]; simpl;
        [| discriminate].
      destruct (unmarshalExplain b) as [plan | e]; simpl; [| discriminate].
      intros [= <- <-]. simpl. rewrite !Hflag. repeat split; auto; try congruence.
    + intros Hplan.
      match goal with
      | |- context [pgx_QueryRow_Scan p ?q ?a g'] =>
          destruct (Hplan q a) as (g'' & b & plan & -> & Hb)
      end.
      simpl. rewrite Hb. simpl. eauto.
Qed.

Lemma lessByName_false_nameLe (a b : backends.IndexInfo) :
  lessByName b a = false <-> nameLe a b.
Proof. apply string_ltb_false_leb. Qed.

Lemma nameLe_trans (a b d : backends.IndexInfo) :
  nameLe a b -> nameLe b d -> nameLe a d.
Proof. apply string_leb_trans. Qed.

Lemma Sorted_nameLe (l : list backends.IndexInfo) :
  Sorted (fun a b => lessByName b a = false) l -> StronglySorted nameLe l.
Proof.
  intros Hs. apply Sorted_StronglySorted.
  - intros a b d. apply nameLe_trans.
  - induction Hs as [| a l Hs IH Hhd]; constructor; auto.
    destruct Hhd as [| b l' Hab]; constructor.
    now apply lessByName_false_nameLe.
Qed.

Lemma StronglySorted_names (l : list backends.IndexInfo) :
  StronglySorted nameLe l ->
  StronglySorted (fun a b => String.leb a b = true) (map backends.Name l).
Proof.
  induction 1 as [| a l Hs IH Hall]; simpl; constructor; auto.
  rewrite List.Forall_forall in *. intros x Hx.
  apply in_map_iff in Hx as (b & <- & Hb). now apply Hall.
Qed.

Lemma convertIndex_names (l : list metadata.IndexInfo) :
  map backends.Name (map convertIndex l) = map metadata.Name l.
Proof. rewrite map_map. reflexivity. Qed.

(** C9. On an existing collection, and for every [sort.Slice] that keeps
    its promise, [ListIndexes] returns the collection's indexes, converted,
    in ascending order of their names, whatever order the metadata has them
    in; for the names [b_idx], [a_idx], [c_idx] the order returned is
    [a_idx], [b_idx], [c_idx]. *)
Theorem ListIndexes_sorted_by_name (c : collection) (w : World PG) (g' : PG)
    (p : Pool) (meta : metadata.Collection) :
  sort_Slice_contract ->
  namespace_exists c (pg w) g' p meta ->
  exists res : backends.ListIndexesResult,
    ListIndexes c w = ({| pg := g'; trace := trace w |}, Done res) /\
    StronglySorted nameLe (backends.Indexes res) /\
    Permutation (map convertIndex (metadata.Indexes meta))
      (backends.Indexes res) /\
    (map metadata.Name (metadata.Indexes meta) = ["b_idx"; "a_idx"; "c_idx"] ->
     map backends.Name (backends.Indexes res) = ["a_idx"; "b_idx"; "c_idx"]).
Proof.
  intros Hsort (g1 & Hdb & Hcoll).
  destruct (Hsort (map convertIndex (metadata.Indexes meta))) as [Hperm Hsorted].
  apply Sorted_nameLe in Hsorted.
  eexists. split; [| split; [| split]].
  - unfold ListIndexes. run. rewrite Hdb. simpl. rewrite Hcoll. reflexivity.
  - exact Hsorted.
  - exact Hperm.
  - simpl. intros Hnames.
    apply sorted_strings_unique.
    + apply (Permutation_map backends.Name) in Hperm.
      rewrite convertIndex_names, Hnames in Hperm.
      rewrite <- Hperm. apply perm_swap.
    + now apply StronglySorted_names.
    + repeat constructor.
Qed.

(** **** The loop of [UpdateAll] *)


Lemma updateDocs_done (tx : Pool) (q : string) (docs : list Document) :
  forall (updated : Z) (w w' : World PG) (n : Z),
    updateDocs tx q docs updated w = (w', Done n) ->
    exists evs : list Event,
      trace w' = trace w ++ evs /\
      Forall2 (updateOf q) docs evs /\
      n = fold_left countStep evs updated.
Proof.
  induction docs as [| doc docs IH]; intros updated w w' n; simpl.
  - intros [= <- <-]. exists []. rewrite app_nil_r. repeat split. constructor.
  - destruct (sjson_Marshal doc) as [b | e] eqn:Hb; [| discriminate].
    destruct (Document_Get_id doc) as [id |] eqn:Hid; [| discriminate].
    destruct (sjson_MarshalSingleValue id) as [arg_ | e] eqn:Harg;
      [| discriminate].
    unfold bind, lazily, Exec.
    destruct (pgx_Exec tx q _ (pg w)) as [g [n0 | e]] eqn:Hexec;
      [| discriminate].
    intros Hrun. apply IH in Hrun as (evs & Htrace & Hall & ->).
    simpl in Htrace.
    exists (EvExec q [ArgBytes b; ArgBytes arg_] (Ok n0) :: evs).
    split; [| split].
    + rewrite Htrace, <- app_assoc. reflexivity.
    + constructor; [| exact Hall]. exists b, arg_, id, n0. auto.
    + reflexivity.
Qed.



(** **** Batches *)

Lemma firstn_min_length {A : Type} (n : nat) (l : list A) :
  firstn (Nat.min n (length l)) l = firstn n l.
Proof.
  destruct (Nat.le_ge_cases n (length l)) as [H | H].
  - now rewrite Nat.min_l.
  - rewrite Nat.min_r by exact H.
    now rewrite !firstn_all2 by lia.
Qed.

Lemma skipn_min_length {A : Type} (n : nat) (l : list A) :
  skipn (Nat.min n (length l)) l = skipn n l.
Proof.
  destruct (Nat.le_ge_cases n (length l)) as [H | H].
  - now rewrite Nat.min_l.
  - rewrite Nat.min_r by exact H.
    now rewrite !skipn_all2 by lia.
Qed.

Lemma chunks_concat {A : Type} (m : nat) (l : list A) :
  concat (chunks m l) = l.
Proof.
  funelim (chunks m l); simp chunks; [reflexivity |].
  cbn [concat].
  match goal with IH : concat _ = _ |- _ => rewrite IH end.
  apply firstn_skipn.
Qed.

Lemma chunks_nil {A : Type} (m : nat) (l : list A) :
  chunks m l = [] -> l = [].
Proof. destruct l; simp chunks; congruence. Qed.

Lemma chunks_fullButLast {A : Type} (m : nat) (l : list A) :
  fullButLast (S m) (chunks m l).
Proof.
  funelim (chunks m l); simp chunks; [exact I |].
  cbn [fullButLast].
  destruct (chunks m (skipn (S m) (x :: l))) as [| b bs] eqn:Hrest.
  - rewrite length_firstn. simpl. lia.
  - split; [| assumption].
    assert (Hne : skipn (S m) (x :: l) <> []).
    { intros Hnil. rewrite Hnil in Hrest. simp chunks in Hrest. discriminate. }
    rewrite length_firstn.
    assert (Hlen : (length (skipn (S m) (x :: l)) <> 0)%nat)
      by (destruct (skipn (S m) (x :: l)); simpl; congruence).
    rewrite length_skipn in Hlen. lia.
Qed.

(** **** The loop of [InsertAll] *)

Lemma insertError_unique (e : error) :
  errors_As_PgError e = Some UniqueViolation ->
  insertError e = BackendError ErrorCodeInsertDuplicateID e.
Proof. unfold insertError. now intros ->. Qed.

Lemma forallb_isExecOk_snoc (evs : list Event) (ev : Event) :
  forallb isExecOk evs = true -> isExecOk ev = true ->
  forallb isExecOk (evs ++ [ev]) = true.
Proof.
  intros H1 H2. rewrite forallb_app, H1. simpl. now rewrite H2.
Qed.

(** The loop runs through the batches of [chunks] in their order: [done]
    are the batches whose INSERT was sent, [rest] those never sent.  Every
    INSERT but the last was answered without error. *)
Lemma insertBatches_run (c : collection) (meta : metadata.Collection)
    (tx : Pool) (n : nat) :
  forall (docs : list Document) (w : World PG),
    (length docs <= n)%nat ->
    exists (w' : World PG) (r : outcome unit)
           (done rest : list (list Document)) (evs : list Event),
      insertBatches c (Some meta) tx docs w = (w', r) /\
      done ++ rest = chunks 99 docs /\
      trace w' = trace w ++ evs /\
      Forall2 (insertOf c meta) done evs /\
      match r with
      | Done _ => rest = [] /\ forallb isExecOk evs = true
      | Fail err =>
          (exists (oks : list Event) (q : string) (a : list arg) (e : error),
              evs = oks ++ [EvExec q a (Err e)] /\
              forallb isExecOk oks = true /\
              err = insertError e) \/
          (forallb isExecOk evs = true /\
           exists e : error, err = LazyError "InsertAll" e)
      | Panic _ => False
      end.
Proof.
  induction n as [| n IH]; intros docs w Hlen.
  - destruct docs; [| simpl in Hlen; lia].
    exists w, (Done tt), [], [], []. simp insertBatches chunks.
    rewrite !app_nil_r. repeat split. constructor.
  - destruct docs as [| d ds].
    + exists w, (Done tt), [], [], []. simp insertBatches chunks.
      rewrite !app_nil_r. repeat split. constructor.
    + simp insertBatches chunks. cbn zeta.
      rewrite firstn_min_length, skipn_min_length.
      change batchSize with 100%nat.
      destruct (prepareInsertStatement _ _ _ (firstn 100 (d :: ds)))
        as [[q a] | e] eqn:Hprep.
      * unfold Exec.
        destruct (pgx_Exec tx q a (pg w)) as [g [k | e]] eqn:Hexec.
        -- destruct (IH (skipn 100 (d :: ds))
                       {| pg := g; trace := trace w ++ [EvExec q a (Ok k)] |})
             as (w' & r & done & rest & evs & Hrun & Hchunks & Htrace & Hall & Hr).
           { rewrite length_skipn. simpl in *. lia. }
           exists w', r, (firstn 100 (d :: ds) :: done), rest,
             (EvExec q a (Ok k) :: evs).
           split; [exact Hrun |]. split; [simpl; now rewrite Hchunks |].
           split; [rewrite Htrace; simpl; now rewrite <- app_assoc |].
           split; [constructor; [exists q, a, (Ok k); auto | exact Hall] |].
           destruct r as [[] | err | msg]; [| | exact Hr].
           ++ destruct Hr as [-> Hoks]. split; [reflexivity |].
              simpl. exact Hoks.
           ++ destruct Hr as [(oks & q' & a' & e' & -> & Hoks & ->)
                             | (Hoks & e' & ->)].
              ** left. exists (EvExec q a (Ok k) :: oks), q', a', e'.
                 repeat split. simpl. exact Hoks.
              ** right. split; [simpl; exact Hoks | eauto].
        -- exists {| pg := g; trace := trace w ++ [EvExec q a (Err e)] |},
             (Fail (insertError e)), [firstn 100 (d :: ds)],
             (chunks 99 (skipn 100 (d :: ds))), [EvExec q a (Err e)].
           split.
           { unfold insertError. destruct (errors_As_PgError e) as [code |];
               [destruct (String.eqb code UniqueViolation) |]; reflexivity. }
           split; [reflexivity |]. split; [reflexivity |].
           split; [constructor; [exists q, a, (Err e); auto | constructor] |].
           left. exists [], q, a, e. repeat split.
      * exists w, (Fail (LazyError "InsertAll" e)), [],
          (firstn 100 (d :: ds) :: chunks 99 (skipn 100 (d :: ds))), [].
        rewrite !app_nil_r. repeat split; [constructor |].
        right. split; [reflexivity | eauto].
Qed.

Lemma insertOf_isExec (c : collection) (meta : metadata.Collection)
    (bs : list (list Document)) (evs : list Event) :
  Forall2 (insertOf c meta) bs evs -> List.filter isExec evs = evs.
Proof.
  induction 1 as [| b ev bs evs (q & a & r & _ & ->) _ IH]; simpl;
    [reflexivity | now rewrite IH].
Qed.

Lemma isExecOk_not_failed (evs : list Event) (q : string) (a : list arg)
    (e : error) :
  forallb isExecOk evs = true -> ~ In (EvExec q a (Err e)) evs.
Proof.
  intros Hall Hin. rewrite forallb_forall in Hall.
  apply Hall in Hin. discriminate.
Qed.

(** What a call of [InsertAll] comes to once its namespace is resolved. *)
Lemma InsertAll_resolved (c : collection)
    (params : backends.InsertAllParams Document) (w : World PG) (g' : PG)
    (p : Pool) (meta : metadata.Collection) :
  insert_namespace c (pg w) g' p meta ->
  InsertAll c params w
  = match InTransaction p
            (fun tx => insertBatches c (Some meta) tx (backends.Docs params))
            {| pg := g'; trace := trace w |} with
    | (w', Done _) => (w', Done backends.Build_InsertAllResult)
    | (w', Fail e) => (w', Fail e)
    | (w', Panic msg) => (w', Panic msg)
    end.
Proof.
  intros (g0 & g1 & created & Hcreate & Hdb & Hcoll).
  unfold InsertAll. run. rewrite Hcreate. simpl. rewrite Hdb. simpl.
  rewrite Hcoll. simpl. reflexivity.
Qed.

Lemma forallb_isExecOk_removelast (ev : Event) (evs : list Event) :
  isExecOk ev = true ->
  forallb isExecOk (removelast evs) = true ->
  forallb isExecOk (removelast (ev :: evs)) = true.
Proof.
  intros Hev Hevs. destruct evs as [| ev' evs]; [reflexivity |].
  change (removelast (ev :: ev' :: evs)) with (ev :: removelast (ev' :: evs)).
  change (isExecOk ev && forallb isExecOk (removelast (ev' :: evs)) = true).
  now rewrite Hev, Hevs.
Qed.

(** The loop, step by step: the INSERTs are sent for the batches of
    [chunks] in their order until one cannot be prepared or is refused; only
    the last INSERT sent can have been refused. *)
Lemma insertBatches_steps (c : collection) (meta : metadata.Collection)
    (tx : Pool) (n : nat) :
  forall (docs : list Document) (w : World PG),
    (length docs <= n)%nat ->
    exists (w' : World PG) (r : outcome unit)
           (done rest : list (list Document)) (evs : list Event),
      insertBatches c (Some meta) tx docs w = (w', r) /\
      done ++ rest = chunks 99 docs /\
      trace w' = trace w ++ evs /\
      Forall2 (insertOf c meta) done evs /\
      forallb isExecOk (removelast evs) = true /\
      match r with
      | Done _ => rest = [] /\ forallb isExecOk evs = true
      | Fail err =>
          (exists (oks : list Event) (q : string) (a : list arg) (e : error),
              evs = oks ++ [EvExec q a (Err e)]) \/
          (exists (b : list Document) (rest' : list (list Document))
                  (e : error),
              rest = b :: rest' /\
              prepareInsertStatement (dbName c) (metadata.TableName meta)
                (metadata.Capped meta) b = Err e)
      | Panic _ => False
      end.
Proof.
  induction n as [| n IH]; intros docs w Hlen.
  - destruct docs; [| simpl in Hlen; lia].
    exists w, (Done tt), [], [], []. simp insertBatches chunks.
    rewrite !app_nil_r. repeat split. constructor.
  - destruct docs as [| d ds].
    + exists w, (Done tt), [], [], []. simp insertBatches chunks.
      rewrite !app_nil_r. repeat split. constructor.
    + simp insertBatches chunks. cbn zeta.
      rewrite firstn_min_length, skipn_min_length.
      change batchSize with 100%nat.
      destruct (prepareInsertStatement _ _ _ (firstn 100 (d :: ds)))
        as [[q a] | e] eqn:Hprep.
      * unfold Exec.
        destruct (pgx_Exec tx q a (pg w)) as [g [k | e]] eqn:Hexec.
        -- destruct (IH (skipn 100 (d :: ds))
                       {| pg := g; trace := trace w ++ [EvExec q a (Ok k)] |})
             as (w' & r & done & rest & evs & Hrun & Hchunks & Htrace & Hall
                 & Hlast & Hr).
           { rewrite length_skipn. simpl in *. lia. }
           exists w', r, (firstn 100 (d :: ds) :: done), rest,
             (EvExec q a (Ok k) :: evs).
           split; [exact Hrun |]. split; [simpl; now rewrite Hchunks |].
           split; [rewrite Htrace; simpl; now rewrite <- app_assoc |].
           split; [constructor; [exists q, a, (Ok k); auto | exact Hall] |].
           split; [now apply forallb_isExecOk_removelast |].
           destruct r as [[] | err | msg]; [| | exact Hr].
           ++ destruct Hr as [-> Hoks]. split; [reflexivity |].
              simpl. exact Hoks.
           ++ destruct Hr as [(oks & q' & a' & e' & ->) | Hprepare].
              ** left. exists (EvExec q a (Ok k) :: oks), q', a', e'.
                 reflexivity.
              ** right. exact Hprepare.
        -- exists {| pg := g; trace := trace w ++ [EvExec q a (Err e)] |},
             (Fail (insertError e)), [firstn 100 (d :: ds)],
             (chunks 99 (skipn 100 (d :: ds))), [EvExec q a (Err e)].
           split.
           { unfold insertError. destruct (errors_As_PgError e) as [code |];
               [destruct (String.eqb code UniqueViolation) |]; reflexivity. }
           split; [reflexivity |]. split; [reflexivity |].
           split; [constructor; [exists q, a, (Err e); auto | constructor] |].
           split; [reflexivity |].
           left. now exists [], q, a, e.
      * exists w, (Fail (LazyError "InsertAll" e)), [],
          (firstn 100 (d :: ds) :: chunks 99 (skipn 100 (d :: ds))), [].
        rewrite !app_nil_r. repeat split; [constructor |].
        right. eauto.
Qed.

(** With statements that can be prepared and an engine that executes them,
    the loop runs to its end. *)
Lemma insertBatches_total (c : collection) (meta : metadata.Collection)
    (tx : Pool) :
  (forall batch : list Document,
      exists (q : string) (a : list arg),
        prepareInsertStatement (dbName c) (metadata.TableName meta)
          (metadata.Capped meta) batch = Ok (q, a)) ->
  (forall (q : string) (a : list arg) (g : PG),
      exists (g1 : PG) (k : Z), pgx_Exec tx q a g = (g1, Ok k)) ->
  forall (n : nat) (docs : list Document) (w : World PG),
    (length docs <= n)%nat ->
    exists w' : World PG,
      insertBatches c (Some meta) tx docs w = (w', Done tt).
Proof.
  intros Hprepare Hexec.
  induction n as [| n IH]; intros docs w Hlen.
  - destruct docs; [| simpl in Hlen; lia]. simp insertBatches. eauto.
  - destruct docs as [| d ds]; [simp insertBatches; eauto |].
    simp insertBatches. cbn zeta.
    rewrite firstn_min_length, skipn_min_length.
    destruct (Hprepare (firstn batchSize (d :: ds))) as (q & a & ->).
    unfold Exec. destruct (Hexec q a (pg w)) as (g1 & k & ->).
    apply IH. rewrite length_skipn. unfold batchSize. simpl in *. lia.
Qed.

(** C6. Once its namespace is resolved, a call of [InsertAll] partitions
    the documents, in their order, into consecutive batches of at most 100
    documents, each but the last of exactly 100, and sends one INSERT per
    batch, in the order of the batches, until one is refused or cannot be
    prepared: the INSERTs in the trace are those of the leading batches
    [done], all but the last of them answered without error; batches are left
    out only when the transaction did not begin, when the last INSERT sent
    was refused, or when the next batch could not be prepared; a call that
    returns a result has sent the INSERTs of all batches between the begin
    and the commit of one transaction; and the call does return a result
    whenever the transaction begins and commits, every batch can be prepared
    and no INSERT sent is refused, in particular with an engine that executes
    every statement. *)
Theorem InsertAll_batches (c : collection)
    (params : backends.InsertAllParams Document) (w : World PG) (g' : PG)
    (p : Pool) (meta : metadata.Collection) :
  insert_namespace c (pg w) g' p meta ->
  exists (w' : World PG) (r : outcome backends.InsertAllResult)
         (done rest : list (list Document)) (new : list Event),
    InsertAll c params w = (w', r) /\
    trace w' = trace w ++ new /\
    concat (done ++ rest) = backends.Docs params /\
    fullButLast batchSize (done ++ rest) /\
    Forall2 (insertOf c meta) done (List.filter isExec new) /\
    (forall res : backends.InsertAllResult,
        r = Done res ->
        rest = [] /\
        new = EvBegin None :: List.filter isExec new ++ [EvCommit None] /\
        forallb isExecOk (List.filter isExec new) = true) /\
    forallb isExecOk (removelast (List.filter isExec new)) = true /\
    (rest <> [] ->
     (exists e : error, new = [EvBegin (Some e)]) \/
     (exists (oks : list Event) (q : string) (a : list arg) (e : error),
         List.filter isExec new = oks ++ [EvExec q a (Err e)]) \/
     (exists (b : list Document) (rest' : list (list Document)) (e : error),
         rest = b :: rest' /\
         prepareInsertStatement (dbName c) (metadata.TableName meta)
           (metadata.Capped meta) b = Err e)) /\
    (pgx_Begin p g' = None ->
     (forall g : PG, pgx_Commit p g = None) ->
     (forall batch : list Document,
         exists (q : string) (a : list arg),
           prepareInsertStatement (dbName c) (metadata.TableName meta)
             (metadata.Capped meta) batch = Ok (q, a)) ->
     forallb isExecOk (List.filter isExec new) = true \/
     (forall (q : string) (a : list arg) (g : PG),
         exists (g1 : PG) (k : Z), pgx_Exec p q a g = (g1, Ok k)) ->
     exists res : backends.InsertAllResult, r = Done res).
Proof.
  intros Hns. rewrite (InsertAll_resolved c params w g' p meta Hns).
  unfold InTransaction. simpl.
  destruct (pgx_Begin p g') as [e |] eqn:Hbegin.
  - exists (record (EvBegin (Some e)) {| pg := g'; trace := trace w |}),
      (Fail (LazyError "InTransaction" e)), [],
      (chunks 99 (backends.Docs params)), [EvBegin (Some e)].
    split; [reflexivity |]. split; [reflexivity |].
    split; [apply chunks_concat |]. split; [apply chunks_fullButLast |].
    split; [constructor |]. split; [discriminate |].
    split; [reflexivity |]. split; [left; now exists e | discriminate].
  - destruct (insertBatches_steps c meta p (length (backends.Docs params))
                (backends.Docs params)
                (record (EvBegin None) {| pg := g'; trace := trace w |})
                (Nat.le_refl _))
      as (w1 & r1 & done & rest & evs & Hrun & Hchunks & Htrace & Hall
          & Hlast & Hr).
    simpl in Htrace.
    pose proof (insertOf_isExec c meta done evs Hall) as Hfilter.
    assert (Hconcat : concat (done ++ rest) = backends.Docs params)
      by (rewrite Hchunks; apply chunks_concat).
    assert (Hfull : fullButLast batchSize (done ++ rest))
      by (rewrite Hchunks; apply chunks_fullButLast).
    assert (Hsent : forall tail : list Event,
               existsb isExec tail = false ->
               List.filter isExec (EvBegin None :: evs ++ tail) = evs).
    { intros tail Htail. simpl. rewrite List.filter_app, Hfilter.
      replace (List.filter isExec tail) with (@nil Event);
        [apply app_nil_r |].
      clear - Htail. induction tail as [| ev tail IH]; [reflexivity |].
      simpl in *. apply orb_false_elim in Htail as [-> Htail]. now apply IH. }
    assert (Hcoop :
              (forall g : PG, pgx_Commit p g = None) ->
              (forall batch : list Document,
                  exists (q : string) (a : list arg),
                    prepareInsertStatement (dbName c) (metadata.TableName meta)
                      (metadata.Capped meta) batch = Ok (q, a)) ->
              (forall (q : string) (a : list arg) (g : PG),
                  exists (g1 : PG) (k : Z), pgx_Exec p q a g = (g1, Ok k)) ->
              r1 = Done tt /\ pgx_Commit p (pg w1) = None).
    { intros Hcommit Hprepare Hexec.
      destruct (insertBatches_total c meta p Hprepare Hexec
                  (length (backends.Docs params)) (backends.Docs params)
                  (record (EvBegin None) {| pg := g'; trace := trace w |})
                  (Nat.le_refl _)) as (w2 & Hdone).
      rewrite Hdone in Hrun. injection Hrun as _ <-. auto. }
    rewrite Hrun.
    destruct r1 as [[] | err | msg]; [| | contradiction].
    + destruct Hr as [-> Hoks]. rewrite app_nil_r in Hconcat, Hfull.
      destruct (pgx_Commit p (pg w1)) as [e |] eqn:Hcommit.
      * exists {| pg := g';
                  trace := trace w1 ++ [EvCommit (Some e); EvRollback] |},
          (Fail (LazyError "InTransaction" e)), done, [],
          (EvBegin None :: evs ++ [EvCommit (Some e); EvRollback]).
        rewrite (Hsent [EvCommit (Some e); EvRollback] eq_refl), app_nil_r.
        split; [reflexivity |].
        split; [simpl; rewrite Htrace, <- !app_assoc; reflexivity |].
        split; [exact Hconcat |]. split; [exact Hfull |].
        split; [exact Hall |]. split; [discriminate |].
        split; [exact Hlast |]. split; [now intros [] |].
        intros _ Hc _ _. rewrite Hc in Hcommit. discriminate.
      * exists (record (EvCommit None) w1),
          (Done backends.Build_InsertAllResult), done, [],
          (EvBegin None :: evs ++ [EvCommit None]).
        rewrite (Hsent [EvCommit None] eq_refl), app_nil_r.
        split; [reflexivity |].
        split; [simpl; rewrite Htrace, <- !app_assoc; reflexivity |].
        split; [exact Hconcat |]. split; [exact Hfull |].
        split; [exact Hall |]. split; [intros res _; auto |].
        split; [exact Hlast |]. split; [now intros [] | eauto].
    + exists {| pg := g'; trace := trace w1 ++ [EvRollback] |}, (Fail err),
        done, rest, (EvBegin None :: evs ++ [EvRollback]).
      rewrite (Hsent [EvRollback] eq_refl).
      split; [reflexivity |].
      split; [simpl; rewrite Htrace, <- !app_assoc; reflexivity |].
      split; [exact Hconcat |]. split; [exact Hfull |].
      split; [exact Hall |]. split; [discriminate |].
      split; [exact Hlast |].
      split; [intros _; right; exact Hr |].
      intros _ Hc Hp [Hoks | He].
      * destruct Hr as [(oks & q & a & e & ->) | (b & rest' & e & _ & Hb)].
        -- rewrite forallb_app in Hoks. simpl in Hoks.
           rewrite andb_false_r in Hoks. discriminate.
        -- destruct (Hp b) as (q & a & Hok). congruence.
      * destruct (Hcoop Hc Hp He) as [Hdone _]. discriminate.
Qed.

(** A failed [Exec] found in the trace of a transaction is one of the
    statements [evs] sent between its begin and its end [tail]. *)
Lemma failed_exec_in_transaction (b : option error) (evs tail : list Event)
    (q : string) (a : list arg) (e : error) :
  In (EvExec q a (Err e)) (EvBegin b :: evs ++ tail) ->
  existsb isExec tail = false ->
  In (EvExec q a (Err e)) evs.
Proof.
  intros [Hin | Hin] Htail; [discriminate |].
  destruct (in_app_or evs tail _ Hin) as [H | H]; [exact H |].
  exfalso.
  assert (Hex : existsb isExec tail = true)
    by (apply existsb_exists; eexists; split; [exact H | reflexivity]).
  congruence.
Qed.

(** C1. Once its namespace is resolved, a call of [InsertAll] in which the
    INSERT of some batch fails with a uniqueness violation returns the
    duplicate-identifier error built on that failure; the failed INSERT is
    the last statement sent, followed only by the rollback of the one
    transaction all INSERTs of the call were sent in; and the engine is left
    in the state it had before the transaction began, so that no document
    of the call is persisted. *)
Theorem InsertAll_duplicate_aborts (c : collection)
    (params : backends.InsertAllParams Document) (w w' : World PG) (g' : PG)
    (p : Pool) (meta : metadata.Collection)
    (r : outcome backends.InsertAllResult) (new : list Event)
    (q : string) (a : list arg) (e : error) :
  insert_namespace c (pg w) g' p meta ->
  InsertAll c params w = (w', r) ->
  trace w' = trace w ++ new ->
  In (EvExec q a (Err e)) new ->
  errors_As_PgError e = Some UniqueViolation ->
  r = Fail (BackendError ErrorCodeInsertDuplicateID e) /\
  (exists oks : list Event,
      new = EvBegin None :: oks ++ [EvExec q a (Err e); EvRollback] /\
      forallb isExecOk oks = true) /\
  pg w' = g'.
Proof.
  intros Hns Hcall Hnew Hin Huniq.
  rewrite (InsertAll_resolved c params w g' p meta Hns) in Hcall.
  unfold InTransaction in Hcall. simpl in Hcall.
  destruct (pgx_Begin p g') as [e0 |].
  - injection Hcall as <- <-. simpl in Hnew.
    apply app_inv_head in Hnew. subst new.
    destruct Hin as [Hin | []]. discriminate.
  - destruct (insertBatches_run c meta p (length (backends.Docs params))
                (backends.Docs params)
                (record (EvBegin None) {| pg := g'; trace := trace w |})
                (Nat.le_refl _))
      as (w1 & r1 & done & rest & evs & Hrun & _ & Htrace & _ & Hr).
    rewrite Hrun in Hcall. simpl in Htrace.
    destruct r1 as [[] | err | msg]; [| | contradiction].
    + exfalso. destruct Hr as [_ Hoks].
      destruct (pgx_Commit p (pg w1)) as [e0 |];
        injection Hcall as <- <-; simpl in Hnew;
        rewrite Htrace, <- !app_assoc in Hnew;
        apply app_inv_head in Hnew; subst new;
        apply (isExecOk_not_failed evs q a e Hoks);
        apply (failed_exec_in_transaction _ _ _ _ _ _ Hin); reflexivity.
    + injection Hcall as <- <-. simpl in Hnew.
      rewrite Htrace, <- !app_assoc in Hnew.
      apply app_inv_head in Hnew. subst new.
      apply (failed_exec_in_transaction None evs [EvRollback]) in Hin;
        [| reflexivity].
      destruct Hr as [(oks & q' & a' & e' & -> & Hoks & ->) | (Hoks & _)];
        [| exfalso; now apply (isExecOk_not_failed evs q a e Hoks)].
      destruct (in_app_or oks [EvExec q' a' (Err e')] _ Hin) as [H | [H | []]];
        [exfalso; now apply (isExecOk_not_failed oks q a e Hoks) |].
      injection H as -> -> ->.
      split; [now rewrite insertError_unique |].
      split; [| reflexivity].
      exists oks. split; [| exact Hoks]. simpl. now rewrite <- app_assoc.
Qed.

End AdapterFacts.

(** * Properties of cursors *)

Section CursorFacts.

Import cursor.

Context {Document Iter : Type} {I : DocumentsIterator Document Iter}.

(** Once [closeOnce] is done, [Close] changes nothing. *)
Lemma Close_done (c : Cursor Iter) (s : State Iter) :
  closeOnce c = true -> Close c s = (c, s, Done tt).
Proof. intros H. unfold Close. now rewrite H. Qed.

Lemma CloseN_done (n : nat) (c : Cursor Iter) (s : State Iter) :
  closeOnce c = true -> CloseN n c s = (c, s).
Proof.
  intros H. induction n as [| n IH]; simpl; [reflexivity |].
  now rewrite Close_done.
Qed.

(** C5. For a cursor that wraps an iterator and has not been closed, the
    first [Close] releases the iterator, removes the cursor from the
    registry, closes the closed-signal channel and untracks the token, each
    once and in this order, and every later [Close] is a no-op: after any
    number of further invocations the cursor and the state are as the first
    one left them, the teardown having run exactly once. *)
Theorem Close_teardown_exactly_once (c : Cursor Iter) (s : State Iter)
    (it : Iter) :
  closeOnce c = false ->
  closed c = false ->
  iter c = Some it ->
  exists (c1 : Cursor Iter) (s1 : State Iter),
    Close c s = (c1, s1, Done tt) /\
    effects s1 = effects s ++ [IterClose it; RegistryDelete (ID c);
                               ChanClose (ID c); Untrack (token c)] /\
    registry s1 = registry s ∖ {[ID c]} /\
    tracked s1 = tracked s ∖ {[token c]} /\
    closed c1 = true /\
    Close c1 s1 = (c1, s1, Done tt) /\
    forall n : nat, CloseN (S n) c s = (c1, s1).
Proof.
  intros Honce Hclosed Hiter.
  eexists _, _. split; [| split; [| split; [| split; [| split; [| split]]]]].
  - unfold Close, teardown. rewrite Honce, Hiter. simpl. rewrite Hclosed.
    reflexivity.
  - simpl. rewrite <- !app_assoc. reflexivity.
  - reflexivity.
  - reflexivity.
  - reflexivity.
  - now apply Close_done.
  - intros n. simpl. unfold Close at 1, teardown.
    rewrite Honce, Hiter. simpl. rewrite Hclosed.
    now apply CloseN_done.
Qed.

(** C10. The first [Close] of a cursor leaves its iterator reference [nil],
    so that [Next], after it and after any number of further [Close]
    invocations, panics on the [nil] iterator: it returns neither an error
    nor an end-of-sequence signal. *)
Theorem Next_after_Close_panics (c : Cursor Iter) (s : State Iter) :
  closeOnce c = false ->
  exists (c1 : Cursor Iter) (s1 : State Iter) (r : outcome unit),
    Close c s = (c1, s1, r) /\
    iter c1 = None /\
    Next c1 = (c1, Panic nilDereference) /\
    forall n : nat,
      Next (fst (CloseN n c1 s1)) = (fst (CloseN n c1 s1), Panic nilDereference).
Proof.
  intros Honce. unfold Close. rewrite Honce.
  assert (Hnil : exists (c0 : Cursor Iter) (s0 : State Iter) (r : outcome unit),
             teardown c s = (c0, s0, r) /\ iter c0 = None).
  { unfold teardown. destruct (iter c) as [it |] eqn:Hiter.
    - simpl. destruct (closed c); eexists _, _, _; split; reflexivity.
    - eexists _, _, _. split; [reflexivity | exact Hiter]. }
  destruct Hnil as (c0 & s0 & r & -> & Hiter).
  exists (with_closeOnce c0), s0, r.
  assert (Hnext : Next (with_closeOnce c0)
                  = (with_closeOnce c0, Panic nilDereference)).
  { unfold Next. simpl. now rewrite Hiter. }
  repeat split; auto.
  intros n. now rewrite CloseN_done.
Qed.

End CursorFacts.

(** * The adapter and the cursors on the sample engine *)

Section SampleFacts.

Import Postgresql.

#[local] Existing Instance Sample.env.
#[local] Existing Instance Sample.iterator.

(** ** Insertion sort keeps the promise of [sort.Slice] *)

Lemma insert_Permutation {A : Type} (less : A -> A -> bool) (x : A)
    (l : list A) :
  Permutation (x :: l) (Sample.insert less x l).
Proof.
  induction l as [| y l IH]; simpl; [reflexivity |].
  destruct (less x y); [reflexivity |].
  rewrite perm_swap. now apply perm_skip.
Qed.

Lemma insertionSort_Permutation {A : Type} (less : A -> A -> bool)
    (l : list A) :
  Permutation l (Sample.insertionSort less l).
Proof.
  induction l as [| x l IH]; simpl; [reflexivity |].
  rewrite <- insert_Permutation. now apply perm_skip.
Qed.

Lemma lessByName_asym (a b : backends.IndexInfo) :
  lessByName a b = true -> lessByName b a = false.
Proof.
  unfold lessByName, String.ltb.
  rewrite (String.compare_antisym (backends.Name a) (backends.Name b)).
  destruct (String.compare (backends.Name b) (backends.Name a)); simpl;
    congruence.
Qed.

Lemma insert_Sorted (x : backends.IndexInfo) (l : list backends.IndexInfo) :
  Sorted (fun a b => lessByName b a = false) l ->
  Sorted (fun a b => lessByName b a = false) (Sample.insert lessByName x l).
Proof.
  induction 1 as [| y l Hs IH Hhd]; simpl.
  - repeat constructor.
  - destruct (lessByName x y) eqn:Hxy.
    + constructor; [now constructor |]. constructor.
      now apply lessByName_asym.
    + constructor; [exact IH |].
      destruct Hhd as [| z l' Hyz]; simpl.
      * now constructor.
      * destruct (lessByName x z); now constructor.
Qed.

Lemma insertionSort_contract : sort_Slice_contract (env := Sample.env).
Proof.
  intros l. split.
  - apply insertionSort_Permutation.
  - simpl. induction l as [| x l IH]; simpl; [constructor |].
    now apply insert_Sorted.
Qed.

(** ** The calls of the adapter, run *)

Example Query_existing_namespace_runs :
  snd (Query (env := Sample.env) Sample.users Sample.qparams
         (Sample.world Sample.Ready [1; 2]))
  = Done {| Iter := {| iter_rows :=
                         Some {| rows_items := [(EmptyString, 1); (EmptyString, 2)];
                                 rows_Err := None |};
                       iter_onlyRecordIDs := false |} |}.
Proof. reflexivity. Qed.

Example InsertAll_250_documents_runs :
  let (w', r) :=
    InsertAll (env := Sample.env) Sample.users
      {| backends.Docs := Sample.docsFrom 1 250 |}
      (Sample.world Sample.NoDatabase []) in
  map (fun ev => match ev with
                 | EvExec _ a _ => length a
                 | _ => O
                 end) (List.filter isExec (trace w')) = [100; 100; 50]%nat /\
  length (Sample.ids (pg w')) = 250%nat /\
  r = Done backends.Build_InsertAllResult.
Proof. vm_compute. repeat split. Qed.

Example UpdateAll_three_documents_runs :
  snd (UpdateAll (env := Sample.env) Sample.users
         {| backends.Update_Docs := [Sample.doc 1; Sample.doc 5; Sample.doc 2] |}
         (Sample.world Sample.Ready [1; 2]))
  = Done {| backends.Updated := 2 |}.
Proof. reflexivity. Qed.

(** ** The theorems, applied *)

Lemma Query_absent_namespace_witness :
  exists res : QueryResult (string * Z),
    Query (env := Sample.env) Sample.users Sample.qparams
      (Sample.world Sample.NoDatabase [])
    = ({| pg := {| Sample.catalog := Sample.NoDatabase; Sample.ids := [] |};
          trace := [] |}, Done res) /\
    iter_rows (Iter res) = None /\
    rows_of (Iter res) = [].
Proof.
  apply (Query_absent_namespace (env := Sample.env) Sample.users
           Sample.qparams (Sample.world Sample.NoDatabase [])).
  left. reflexivity.
Defined.

Lemma Stats_Compact_ListIndexes_absent_namespace_witness :
  (exists e,
      Stats (env := Sample.env) Sample.users {| backends.Refresh := false |}
        (Sample.world Sample.NoCollection [])
      = ({| pg := {| Sample.catalog := Sample.NoCollection; Sample.ids := [] |};
            trace := [] |}, Fail e) /\
      isDoesNotExist e = true) /\
  (exists e,
      Compact (env := Sample.env) Sample.users None
        (Sample.world Sample.NoCollection [])
      = ({| pg := {| Sample.catalog := Sample.NoCollection; Sample.ids := [] |};
            trace := [] |}, Fail e) /\
      isDoesNotExist e = true) /\
  (exists e,
      ListIndexes (env := Sample.env) Sample.users
        (Sample.world Sample.NoCollection [])
      = ({| pg := {| Sample.catalog := Sample.NoCollection; Sample.ids := [] |};
            trace := [] |}, Fail e) /\
      isDoesNotExist e = true).
Proof.
  apply (Stats_Compact_ListIndexes_absent_namespace (env := Sample.env)
           Sample.users {| backends.Refresh := false |} None
           (Sample.world Sample.NoCollection [])).
  right. exists {| Sample.catalog := Sample.NoCollection; Sample.ids := [] |}, tt.
  split; reflexivity.
Defined.

Lemma Explain_discards_database_error_witness :
  Explain (env := Sample.env) Sample.users Sample.eparams
    (Sample.world Sample.Unreachable [])
  = ({| pg := {| Sample.catalog := Sample.Unreachable; Sample.ids := [] |};
        trace := [] |}, Done emptyExplainResult) /\
  Query (env := Sample.env) Sample.users Sample.qparams
    (Sample.world Sample.Unreachable [])
  = ({| pg := {| Sample.catalog := Sample.Unreachable; Sample.ids := [] |};
        trace := [] |},
     Fail (LazyError "Query" (DriverError "connection refused"))).
Proof.
  apply (Explain_discards_database_error (env := Sample.env) Sample.users
           Sample.eparams Sample.qparams (Sample.world Sample.Unreachable [])).
  reflexivity.
Defined.

Lemma Explain_pushdown_flags_witness :
  exists (w' : World Sample.Store) (res : backends.ExplainResult Sample.Doc),
    Explain (env := Sample.env) Sample.users Sample.eparams
      (Sample.world Sample.Ready [1; 2]) = (w', Done res) /\
    backends.FilterPushdown res = true /\
    backends.SortPushdown res <> true /\
    backends.LimitPushdown res = true.
Proof.
  destruct (Explain_pushdown_flags (env := Sample.env) Sample.users
              Sample.eparams (Sample.world Sample.Ready [1; 2])
              {| Sample.catalog := Sample.Ready; Sample.ids := [1; 2] |}
              tt Sample.meta 1%nat " WHERE _id = $1" [ArgInt64 1])
    as [Hflags Hruns].
  - eexists. split; reflexivity.
  - reflexivity.
  - destruct Hruns as (w' & res & Hrun).
    + intros q a. eexists _, _, _. split; reflexivity.
    + exists w', res. split; [exact Hrun |].
      destruct (Hflags w' res Hrun) as (Hfilter & Hsort & Hlimit).
      split; [apply Hfilter; discriminate |].
      split; [intros H; apply Hsort in H; now apply H |].
      apply Hlimit. discriminate.
Defined.

Lemma ListIndexes_sorted_by_name_witness :
  exists res : backends.ListIndexesResult,
    ListIndexes (env := Sample.env) Sample.users
      (Sample.world Sample.Ready [])
    = ({| pg := {| Sample.catalog := Sample.Ready; Sample.ids := [] |};
          trace := [] |}, Done res) /\
    map backends.Name (backends.Indexes res) = ["a_idx"; "b_idx"; "c_idx"].
Proof.
  destruct (ListIndexes_sorted_by_name (env := Sample.env) Sample.users
              (Sample.world Sample.Ready [])
              {| Sample.catalog := Sample.Ready; Sample.ids := [] |}
              tt Sample.meta insertionSort_contract)
    as (res & Hrun & _ & _ & Hnames).
  - eexists. split; reflexivity.
  - exists res. split; [exact Hrun |]. apply Hnames. reflexivity.
Defined.


Lemma InsertAll_batches_witness :
  exists (w' : World Sample.Store) (done : list (list Sample.Doc))
         (new : list Event),
    InsertAll (env := Sample.env) Sample.users
      {| backends.Docs := Sample.docsFrom 1 250 |}
      (Sample.world Sample.NoDatabase [])
    = (w', Done backends.Build_InsertAllResult) /\
    trace w' = trace (Sample.world Sample.NoDatabase []) ++ new /\
    concat done = Sample.docsFrom 1 250 /\
    fullButLast batchSize done /\
    Forall2 (insertOf Sample.users Sample.meta) done (List.filter isExec new) /\
    new = EvBegin None :: List.filter isExec new ++ [EvCommit None] /\
    length (List.filter isExec new) = 3%nat.
Proof.
  destruct (InsertAll_batches (env := Sample.env) Sample.users
              {| backends.Docs := Sample.docsFrom 1 250 |}
              (Sample.world Sample.NoDatabase [])
              {| Sample.catalog := Sample.Ready; Sample.ids := [] |}
              tt Sample.meta)
    as (w' & r & done & rest & new & Hcall & Htrace & Hconcat & Hfull & Hsent
        & Hdone & _ & _ & Hcoop).
  - eexists _, _, _. repeat split; reflexivity.
  - assert (Hnew : trace (fst (InsertAll (env := Sample.env) Sample.users
                                 {| backends.Docs := Sample.docsFrom 1 250 |}
                                 (Sample.world Sample.NoDatabase [])))
                   = trace w')
      by (now rewrite Hcall).
    rewrite Htrace in Hnew. change (trace _ ++ new) with new in Hnew.
    vm_compute in Hnew.
    destruct Hcoop as [[] ->].
    + reflexivity.
    + reflexivity.
    + intros batch. eexists _, _. reflexivity.
    + left. rewrite <- Hnew. vm_compute. reflexivity.
    + destruct (Hdone _ eq_refl) as (-> & Hshape & _).
      rewrite app_nil_r in Hconcat, Hfull.
      exists w', done, new. repeat split; try assumption.
      rewrite <- Hnew. vm_compute. reflexivity.
Defined.

(** 150 documents, the 120th of which has an identifier that is stored
    already: the second batch fails after the first went through. *)
Lemma InsertAll_duplicate_aborts_witness :
  let call := InsertAll (env := Sample.env) Sample.users
                {| backends.Docs := Sample.docsFrom 1 150 |}
                (Sample.world Sample.Ready [120]) in
  snd call
  = Fail (BackendError ErrorCodeInsertDuplicateID (PgError UniqueViolation)) /\
  (exists oks : list Event,
      trace (fst call)
      = EvBegin None
          :: oks ++ [EvExec "INSERT"
                       (map (fun k => ArgInt64 (Z.of_nat k)) (seq 101 50))
                       (Err (PgError UniqueViolation));
                     EvRollback] /\
      forallb isExecOk oks = true) /\
  pg (fst call) = {| Sample.catalog := Sample.Ready; Sample.ids := [120] |}.
Proof.
  intros call.
  apply (InsertAll_duplicate_aborts (env := Sample.env) Sample.users
           {| backends.Docs := Sample.docsFrom 1 150 |}
           (Sample.world Sample.Ready [120]) (fst call)
           {| Sample.catalog := Sample.Ready; Sample.ids := [120] |}
           tt Sample.meta (snd call) (trace (fst call))
           "INSERT" (map (fun k => ArgInt64 (Z.of_nat k)) (seq 101 50))
           (PgError UniqueViolation)).
  - eexists _, _, _. repeat split; reflexivity.
  - apply surjective_pairing.
  - reflexivity.
  - vm_compute. right. right. left. reflexivity.
  - reflexivity.
Defined.

End SampleFacts.

Section SampleCursorFacts.

Import cursor.

#[local] Existing Instance Sample.iterator.

Example Next_on_fresh_cursor_runs :
  snd (Next (fst Sample.fresh)) = Done (Some 1, None).
Proof. reflexivity. Qed.

Lemma Close_teardown_exactly_once_witness :
  exists (c1 : Cursor (list Z)) (s1 : State (list Z)),
    Close (fst Sample.fresh) (snd Sample.fresh) = (c1, s1, Done tt) /\
    effects s1 = effects (snd Sample.fresh)
                 ++ [IterClose [1; 2; 3]; RegistryDelete (ID (fst Sample.fresh));
                     ChanClose (ID (fst Sample.fresh));
                     Untrack (token (fst Sample.fresh))] /\
    registry s1 = registry (snd Sample.fresh) ∖ {[ID (fst Sample.fresh)]} /\
    tracked s1 = tracked (snd Sample.fresh) ∖ {[token (fst Sample.fresh)]} /\
    closed c1 = true /\
    Close c1 s1 = (c1, s1, Done tt) /\
    forall n : nat,
      CloseN (S n) (fst Sample.fresh) (snd Sample.fresh) = (c1, s1).
Proof.
  apply (Close_teardown_exactly_once (fst Sample.fresh) (snd Sample.fresh)
           [1; 2; 3]); reflexivity.
Defined.

Lemma Next_after_Close_panics_witness :
  exists (c1 : Cursor (list Z)) (s1 : State (list Z)) (r : outcome unit),
    Close (fst Sample.fresh) (snd Sample.fresh) = (c1, s1, r) /\
    iter c1 = None /\
    Next (Document := Z) c1 = (c1, Panic nilDereference) /\
    forall n : nat,
      Next (Document := Z) (fst (CloseN n c1 s1))
      = (fst (CloseN n c1 s1), Panic nilDereference).
Proof.
  apply (Next_after_Close_panics (fst Sample.fresh) (snd Sample.fresh)).
  reflexivity.
Defined.

End SampleCursorFacts.

(** * Further properties of the adapter *)

Section MoreAdapterFacts.

Import Postgresql PostgresqlMore.

Context {Document Value Row Pool PG : Type}.
Context {env : Collaborators Document Value Row Pool PG}.
Context {reg : IndexRegistry PG}.

Ltac calls := unfold bind, lazily, call, ret, fail, panic, of_result; simpl.

(** X1. On a database or collection that does not exist, [UpdateAll]
    reports zero updated rows, [DeleteAll] zero deleted rows and [Explain]
    an empty plan with no pushdown; none of them sends anything to the
    engine, and none opens a transaction. *)
Theorem UpdateAll_DeleteAll_Explain_absent_namespace (c : collection)
    (uparams : backends.UpdateAllParams Document)
    (dparams : DeleteAllParams Value)
    (eparams : backends.ExplainParams Document) (w : World PG) (g' : PG) :
  namespace_absent c (pg w) g' ->
  UpdateAll c uparams w
    = ({| pg := g'; trace := trace w |}, Done {| backends.Updated := 0 |}) /\
  DeleteAll c dparams w
    = ({| pg := g'; trace := trace w |}, Done {| Deleted := 0 |}) /\
  Explain c eparams w
    = ({| pg := g'; trace := trace w |}, Done emptyExplainResult).
Proof.
  intros [Hdb | (g1 & p & Hdb & Hcoll)]; repeat split;
    unfold UpdateAll, DeleteAll, Explain; calls; rewrite Hdb; simpl;
    try (rewrite Hcoll; simpl); reflexivity.
Qed.

(** **** The IN-list of [DeleteAll] *)

Lemma placeholdersByRecordID_spec (ids : list Z) :
  forall ph : metadata.Placeholder,
    placeholdersByRecordID ph ids
    = (markers ph (length ids), map ArgInt64 ids).
Proof.
  induction ids as [| id ids IH]; intros ph; simpl; [reflexivity |].
  rewrite IH. reflexivity.
Qed.

Lemma placeholdersByID_done (ids : list Value) (bs : list (list Byte.byte)) :
  Forall2 (fun id b => sjson_MarshalSingleValue id = Ok b) ids bs ->
  forall ph : metadata.Placeholder,
    placeholdersByID ph ids
    = Done (markers ph (length ids),
            map (fun b => ArgString (string_of_list_byte b)) bs).
Proof.
  induction 1 as [| id b ids bs Hb _ IH]; intros ph; simpl; [reflexivity |].
  rewrite Hb, IH. reflexivity.
Qed.

Lemma placeholdersByID_panic (ids : list Value) :
  Exists (fun id => exists e, sjson_MarshalSingleValue id = Err e) ids ->
  forall ph : metadata.Placeholder,
    placeholdersByID ph ids = Panic "must.NotFail".
Proof.
  induction ids as [| id ids IH]; intros Hex ph; [inversion Hex |].
  simpl. destruct (sjson_MarshalSingleValue id) as [b | e] eqn:Hb;
    [| reflexivity].
  rewrite IH; [reflexivity |].
  inversion Hex as [? ? (e & He) | ? ? Hrest]; subst; [congruence | exact Hrest].
Qed.

(** X2. On an existing namespace, when [RecordIDs] is not [nil], [DeleteAll]
    sends one DELETE on the record-identifier column whose IN-list has the
    markers [$1] to [$n] for the [n] record identifiers, which are the
    arguments, in their order; [IDs] is not looked at.  It returns the rows
    affected as an [int32], or the engine's error wrapped. *)
Theorem DeleteAll_by_record_id (c : collection) (params : DeleteAllParams Value)
    (w : World PG) (g' : PG) (p : Pool) (meta : metadata.Collection)
    (recordIDs : list Z) :
  namespace_exists c (pg w) g' p meta ->
  RecordIDs params = Some recordIDs ->
  let q := deleteStatement c meta RecordIDColumn
             (markers metadata.zero (length recordIDs)) in
  let args := map ArgInt64 recordIDs in
  DeleteAll c params w
  = ({| pg := fst (pgx_Exec p q args g');
        trace := trace w ++ [EvExec q args (snd (pgx_Exec p q args g'))] |},
     deleteOutcome (snd (pgx_Exec p q args g'))).
Proof.
  intros (g1 & Hdb & Hcoll) Hrec q args.
  unfold DeleteAll. calls. rewrite Hdb. simpl. rewrite Hcoll. simpl.
  rewrite Hrec, placeholdersByRecordID_spec. simpl.
  unfold Exec. simpl. subst q args.
  destruct (pgx_Exec p _ _ g') as [g'' [n | e]]; reflexivity.
Qed.

(** X3. On an existing namespace, when [RecordIDs] is [nil] and every
    identifier serialises, [DeleteAll] sends one DELETE on the identifier
    column whose IN-list has the markers [$1] to [$n] for the [n]
    identifiers, the arguments being their serialised forms as strings, in
    their order. *)
Theorem DeleteAll_by_id (c : collection) (params : DeleteAllParams Value)
    (w : World PG) (g' : PG) (p : Pool) (meta : metadata.Collection)
    (bs : list (list Byte.byte)) :
  namespace_exists c (pg w) g' p meta ->
  RecordIDs params = None ->
  Forall2 (fun id b => sjson_MarshalSingleValue id = Ok b) (IDs params) bs ->
  let q := deleteStatement c meta IDColumn
             (markers metadata.zero (length (IDs params))) in
  let args := map (fun b => ArgString (string_of_list_byte b)) bs in
  length args = length (IDs params) /\
  DeleteAll c params w
  = ({| pg := fst (pgx_Exec p q args g');
        trace := trace w ++ [EvExec q args (snd (pgx_Exec p q args g'))] |},
     deleteOutcome (snd (pgx_Exec p q args g'))).
Proof.
  intros (g1 & Hdb & Hcoll) Hrec Hids q args. split.
  - unfold args. rewrite length_map. symmetry. eapply Forall2_length, Hids.
  - unfold DeleteAll. calls. rewrite Hdb. simpl. rewrite Hcoll. simpl.
    rewrite Hrec, (placeholdersByID_done _ _ Hids). simpl.
    unfold Exec. simpl. subst q args.
    destruct (pgx_Exec p _ _ g') as [g'' [n | e]]; reflexivity.
Qed.

(** X4. On an existing namespace, when [RecordIDs] is [nil] and some
    identifier does not serialise, [DeleteAll] panics before anything is
    sent to the engine. *)
Theorem DeleteAll_unserialisable_id_panics (c : collection)
    (params : DeleteAllParams Value) (w : World PG) (g' : PG) (p : Pool)
    (meta : metadata.Collection) :
  namespace_exists c (pg w) g' p meta ->
  RecordIDs params = None ->
  Exists (fun id => exists e, sjson_MarshalSingleValue id = Err e) (IDs params) ->
  DeleteAll c params w
  = ({| pg := g'; trace := trace w |}, Panic "must.NotFail").
Proof.
  intros (g1 & Hdb & Hcoll) Hrec Hbad.
  unfold DeleteAll. calls. rewrite Hdb. simpl. rewrite Hcoll. simpl.
  rewrite Hrec, (placeholdersByID_panic _ Hbad). reflexivity.
Qed.

(** **** Index descriptors there and back *)

Lemma convertKey_toMetadataKey (key : backends.IndexKeyPair) :
  convertKey (toMetadataKey key) = key.
Proof. now destruct key. Qed.

Lemma convertKeys_toMetadataKeys (k : list backends.IndexKeyPair) :
  map (fun key => convertKey (toMetadataKey key)) k = k.
Proof.
  induction k as [| key k IH]; [reflexivity |].
  cbn [map]. now rewrite convertKey_toMetadataKey, IH.
Qed.

Lemma convertIndex_storedAs (index : backends.IndexInfo)
    (stored : metadata.IndexInfo) :
  storedAs index stored -> convertIndex stored = index.
Proof.
  intros (Hname & Hkey & Huniq). unfold convertIndex.
  rewrite Hname, Hkey, Huniq, map_map, convertKeys_toMetadataKeys.
  now destruct index.
Qed.

Lemma convertIndex_all_storedAs (l : list backends.IndexInfo)
    (ms : list metadata.IndexInfo) :
  Forall2 storedAs l ms -> map convertIndex ms = l.
Proof.
  induction 1 as [| i m l ms Him _ IH]; simpl; [reflexivity |].
  now rewrite (convertIndex_storedAs i m Him), IH.
Qed.

Lemma toMetadataIndex_storedAs (l : list backends.IndexInfo) :
  Forall2 storedAs l (map toMetadataIndex l).
Proof.
  induction l as [| i l IH]; simpl; constructor; [| exact IH].
  repeat split.
Qed.

(** X5. Index descriptors make the round trip: [CreateIndexes] hands the
    registry the descriptors converted to its shape, each stored as it was
    given; and when the registry then reports the collection with these
    descriptors stored, under whatever physical names, [ListIndexes] returns
    exactly the descriptors that were created, rearranged in ascending order
    of their names. *)
Theorem CreateIndexes_then_ListIndexes (c : collection)
    (params : CreateIndexesParams) (w : World PG) (g1 g' : PG) (p : Pool)
    (meta : metadata.Collection) :
  sort_Slice_contract ->
  IndexesCreate (dbName c) (name c)
    (map toMetadataIndex (CreateIndexes_Indexes params)) (pg w) = (g1, Ok tt) ->
  namespace_exists c g1 g' p meta ->
  Forall2 storedAs (CreateIndexes_Indexes params) (metadata.Indexes meta) ->
  Forall2 storedAs (CreateIndexes_Indexes params)
    (map toMetadataIndex (CreateIndexes_Indexes params)) /\
  exists (w1 : World PG) (res : backends.ListIndexesResult),
    CreateIndexes c params w = (w1, Done Build_CreateIndexesResult) /\
    ListIndexes c w1 = ({| pg := g'; trace := trace w |}, Done res) /\
    Permutation (CreateIndexes_Indexes params) (backends.Indexes res) /\
    StronglySorted nameLe (backends.Indexes res).
Proof.
  intros Hsort Hcreate (g2 & Hdb & Hcoll) Hstored. split.
  - apply toMetadataIndex_storedAs.
  - pose proof (convertIndex_all_storedAs _ _ Hstored) as Hconv.
    destruct (Hsort (map convertIndex (metadata.Indexes meta)))
      as [Hperm Hsorted].
    eexists _, _. split; [| split; [| split]].
    + unfold CreateIndexes. calls. rewrite Hcreate. reflexivity.
    + unfold ListIndexes. calls. rewrite Hdb. simpl. rewrite Hcoll. reflexivity.
    + simpl. now rewrite <- Hconv.
    + simpl. now apply Sorted_nameLe.
Qed.

(** **** Where errors come from *)




Lemma placeholdersByID_no_error (ids : list Value) :
  forall (ph : metadata.Placeholder) (e : error),
    placeholdersByID ph ids <> Fail e.
Proof.
  induction ids as [| id ids IH]; intros ph e; simpl; [discriminate |].
  destruct (sjson_MarshalSingleValue id); [| discriminate].
  destruct (placeholdersByID (S ph) ids) as [[ps args] | e' | msg] eqn:H;
    try discriminate.
  now apply IH in H.
Qed.

(** An error of the loop of [UpdateAll] is the error of a document that
    does not marshal, or of an [UPDATE] the engine refused, wrapped once. *)
Lemma updateDocs_Fail (tx : Pool) (q : string) (docs : list Document) :
  forall (updated : Z) (w w' : World PG) (err : error),
    updateDocs tx q docs updated w = (w', Fail err) ->
    exists e : error,
      err = LazyError "UpdateAll" e /\
      ((exists doc : Document, In doc docs /\ sjson_Marshal doc = Err e) \/
       exists oks : list Event, refusedExec e w w' oks []).
Proof.
  induction docs as [| doc docs IH]; intros updated w w' err; simpl.
  - discriminate.
  - destruct (sjson_Marshal doc) as [b | e] eqn:Hb.
    2: { intros [= <- <-]. exists e. split; [reflexivity |].
         left. exists doc. auto. }
    destruct (Document_Get_id doc) as [id |] eqn:Hid; [| discriminate].
    destruct (sjson_MarshalSingleValue id) as [arg_ | e] eqn:Harg;
      [| discriminate].
    unfold bind, lazily, Exec.
    destruct (pgx_Exec tx q _ (pg w)) as [g [n0 | e]] eqn:Hexec.
    + intros Hrun.
      apply IH in Hrun as (e & -> & [(d & Hin & Hd) | (oks & Hexec')]).
      * exists e. split; [reflexivity |]. left. exists d. auto.
      * exists e. split; [reflexivity |]. right.
        destruct Hexec' as (p' & q' & a' & g1 & g2 & Hcall & Htrace).
        exists (EvExec q [ArgBytes b; ArgBytes arg_] (Ok n0) :: oks),
          p', q', a', g1, g2.
        split; [exact Hcall |].
        rewrite Htrace. simpl. rewrite <- app_assoc. reflexivity.
    + intros [= <- <-]. exists e. split; [reflexivity |]. right.
      exists [], tx, q, [ArgBytes b; ArgBytes arg_], (pg w), g.
      split; [exact Hexec | reflexivity].
Qed.

(** Closes a goal whose error is the wrapped error [e] of a collaborator,
    once [tac] has shown where [e] comes from. *)
Ltac wraps e tac :=
  intros [= <- <-]; exists e; split; [reflexivity | tac].

(** X7. Every error that [Query], [UpdateAll], [Explain], [DeleteAll],
    [CreateIndexes] or [DropIndexes] returns is an error of a collaborator
    wrapped by [lazyerrors.Error] in that method, and none is an error of the
    method's own making.  The error inside is the error that the lookup of
    the database or of the collection returned, or the builder of the WHERE
    clause, or the engine for the statement sent, or the decoder of the plan,
    or the registry for the indexes.  [Explain] never returns the error of
    the lookup of the database.  [UpdateAll] wraps a second time what comes
    out of its transaction: the error of a begin or commit that
    [InTransaction] wrapped, or the error of a document that does not
    marshal or of a refused UPDATE that the loop wrapped. *)
Theorem errors_are_wrapped (c : collection) (w w' : World PG) (err : error) :
  (forall qparams,
      Query c qparams w = (w', Fail err) ->
      exists e : error,
        err = LazyError "Query" e /\
        (databaseLookupError c (pg w) e \/
         collectionLookupError c (pg w) e \/
         (exists ph : metadata.Placeholder,
             prepareWhereClause metadata.zero (backends.Filter qparams)
             = (ph, Err e)) \/
         refusedQuery e w w')) /\
  (forall uparams,
      UpdateAll c uparams w = (w', Fail err) ->
      exists e : error,
        (err = LazyError "UpdateAll" e /\
         (databaseLookupError c (pg w) e \/
          collectionLookupError c (pg w) e)) \/
        (err = LazyError "UpdateAll" (LazyError "InTransaction" e) /\
         transactionError e w w') \/
        (err = LazyError "UpdateAll" (LazyError "UpdateAll" e) /\
         ((exists doc : Document,
              In doc (backends.Update_Docs uparams) /\
              sjson_Marshal doc = Err e) \/
          exists oks : list Event,
            refusedExec e w w' (EvBegin None :: oks) [EvRollback]))) /\
  (forall eparams,
      Explain c eparams w = (w', Fail err) ->
      exists e : error,
        err = LazyError "Explain" e /\
        (collectionLookupError c (pg w) e \/
         (exists ph : metadata.Placeholder,
             prepareWhereClause metadata.zero
               (backends.Explain_Filter eparams)
             = (ph, Err e)) \/
         refusedQueryRow e w w' \/
         (exists b : list Byte.byte, unmarshalExplain b = Err e))) /\
  (forall dparams,
      DeleteAll c dparams w = (w', Fail err) ->
      exists e : error,
        err = LazyError "DeleteAll" e /\
        (databaseLookupError c (pg w) e \/
         collectionLookupError c (pg w) e \/
         refusedExec e w w' [] [])) /\
  (forall cparams,
      CreateIndexes c cparams w = (w', Fail err) ->
      exists (e : error) (g : PG),
        err = LazyError "CreateIndexes" e /\
        IndexesCreate (dbName c) (name c)
          (map toMetadataIndex (CreateIndexes_Indexes cparams)) (pg w)
        = (g, Err e)) /\
  (forall dparams,
      DropIndexes c dparams w = (w', Fail err) ->
      exists (e : error) (g : PG),
        err = LazyError "DropIndexes" e /\
        IndexesDrop (dbName c) (name c) (DropIndexes_Indexes dparams) (pg w)
        = (g, Err e)).
Proof.
  repeat split; intros params.
  - unfold Query, Query_. calls.
    destruct (DatabaseGetExisting (dbName c) (pg w)) as [g [[p |] | e]]
      eqn:Hdb; simpl;
      [| discriminate | wraps e ltac:(left; now exists g)].
    destruct (CollectionGet (dbName c) (name c) g) as [g1 [[meta |] | e]]
      eqn:Hcoll; simpl;
      [| discriminate | wraps e ltac:(right; left; now exists g, p, g1)].
    destruct (prepareWhereClause _ _) as [ph [[where_ args] | e]] eqn:Hwhere;
      simpl; [| wraps e ltac:(right; right; left; now exists ph)].
    destruct (prepareOrderByClause _ _ _) as [ph' [sort sortArgs]]. simpl.
    destruct (backends.Limit params =? 0); simpl;
      (destruct (pgx_Query _ _ _ g1) as [g2 [rs | e]] eqn:Hquery; simpl;
       [discriminate |];
       wraps e ltac:(right; right; right; eexists _, _, _, _, _;
                     split; [exact Hquery | reflexivity])).
  - unfold UpdateAll, InTransaction. calls.
    destruct (DatabaseGetExisting (dbName c) (pg w)) as [g [[p |] | e]]
      eqn:Hdb; simpl; [| discriminate |].
    2: { intros [= <- <-]. exists e. left. split; [reflexivity |].
         left. now exists g. }
    destruct (CollectionGet (dbName c) (name c) g) as [g1 [[meta |] | e]]
      eqn:Hcoll; simpl; [| discriminate |].
    2: { intros [= <- <-]. exists e. left. split; [reflexivity |].
         right. now exists g, p, g1. }
    destruct (pgx_Begin p g1) as [e |] eqn:Hbegin; simpl.
    { intros [= <- <-]. exists e. right. left. split; [reflexivity |].
      exists p, g1. left. split; [exact Hbegin | reflexivity]. }
    destruct (updateDocs p _ _ 0 _) as [w1 [n | e | msg]] eqn:Hrun; simpl;
      [| | discriminate].
    + destruct (pgx_Commit p (pg w1)) as [e |] eqn:Hcommit; simpl;
        [| discriminate].
      intros [= <- <-]. exists e. right. left. split; [reflexivity |].
      exists p, (pg w1). right. split; [exact Hcommit |].
      apply updateDocs_done in Hrun as (evs & Htrace & _).
      exists evs. simpl in *. rewrite Htrace, <- !app_assoc. reflexivity.
    + intros [= <- <-].
      apply updateDocs_Fail in Hrun
        as (e' & -> & [Hdoc | (oks & p' & q' & a' & g2 & g3 & Hcall & Htrace)]).
      * exists e'. right. right. split; [reflexivity |]. left. exact Hdoc.
      * exists e'. right. right. split; [reflexivity |]. right.
        exists oks, p', q', a', g2, g3. split; [exact Hcall |].
        simpl in *. rewrite Htrace, <- !app_assoc. reflexivity.
  - unfold Explain, QueryRow_Scan. calls.
    destruct (DatabaseGetExisting (dbName c) (pg w)) as [g [[p |] | e]]
      eqn:Hdb; simpl; try discriminate.
    destruct (CollectionGet (dbName c) (name c) g) as [g1 [[meta |] | e]]
      eqn:Hcoll; simpl;
      [| discriminate | wraps e ltac:(left; now exists g, p, g1)].
    destruct (prepareWhereClause _ _) as [ph [[where_ args] | e]] eqn:Hwhere;
      simpl; [| wraps e ltac:(right; left; now exists ph)].
    destruct (prepareOrderByClause _ _ _) as [ph' [sort sortArgs]]. simpl.
    destruct (backends.Explain_Limit params =? 0); simpl;
      (destruct (pgx_QueryRow_Scan _ _ _ g1) as [g2 [b | e]] eqn:Hrow; simpl;
       [| wraps e ltac:(right; right; left; eexists _, _, _, _, _;
                        split; [exact Hrow | reflexivity])];
       destruct (unmarshalExplain b) as [plan | e] eqn:Hplan; simpl;
       [discriminate |];
       wraps e ltac:(right; right; right; now exists b)).
  - unfold DeleteAll, Exec. calls.
    destruct (DatabaseGetExisting (dbName c) (pg w)) as [g [[p |] | e]]
      eqn:Hdb; simpl;
      [| discriminate | wraps e ltac:(left; now exists g)].
    destruct (CollectionGet (dbName c) (name c) g) as [g1 [[meta |] | e]]
      eqn:Hcoll; simpl;
      [| discriminate | wraps e ltac:(right; left; now exists g, p, g1)].
    destruct (RecordIDs params) as [recordIDs |].
    + destruct (placeholdersByRecordID metadata.zero recordIDs) as [ps args].
      simpl. destruct (pgx_Exec _ _ _ g1) as [g2 [n | e]] eqn:Hexec; simpl;
        [discriminate |].
      wraps e ltac:(right; right; eexists _, _, _, _, _;
                    split; [exact Hexec | reflexivity]).
    + destruct (placeholdersByID metadata.zero (IDs params))
        as [[ps args] | e | msg] eqn:Hbuilt; simpl.
      * destruct (pgx_Exec _ _ _ g1) as [g2 [n | e]] eqn:Hexec; simpl;
          [discriminate |].
        wraps e ltac:(right; right; eexists _, _, _, _, _;
                      split; [exact Hexec | reflexivity]).
      * now apply placeholdersByID_no_error in Hbuilt.
      * discriminate.
  - unfold CreateIndexes. calls.
    destruct (IndexesCreate _ _ _ (pg w)) as [g [[] | e]] eqn:Hcreate; simpl;
      [discriminate |].
    intros [= <- <-]. now exists e, g.
  - unfold DropIndexes. calls.
    destruct (IndexesDrop _ _ _ (pg w)) as [g [[] | e]] eqn:Hdrop; simpl;
      [discriminate |].
    intros [= <- <-]. now exists e, g.
Qed.

Lemma scanIndexSizes_Fail (indexMap : gmap string string) (items : list Row) :
  forall (i : nat) (sizes : list backends.IndexSize) (err : error),
    scanIndexSizes indexMap items i sizes = Fail err -> wrappedIn "Stats" err.
Proof.
  induction items as [| row items IH]; intros i sizes err; simpl;
    [discriminate |].
  destruct (Row_Scan_index row) as [[n size_] | e];
    [| intros [= <-]; now exists e].
  destruct (indexMap !! n); [| apply IH].
  destruct (i <? length sizes)%nat; [apply IH | discriminate].
Qed.

(** X8. [Stats], [Compact] and [ListIndexes] return a does-not-exist error
    only when the database or the collection does not exist; every other
    error they return is an error of a collaborator wrapped by
    [lazyerrors.Error] in that method. *)
Theorem does_not_exist_only_when_absent (c : collection) (w w' : World PG)
    (err : error) :
  (forall sparams,
      Stats c sparams w = (w', Fail err) ->
      (isDoesNotExist err = true /\ namespace_absent c (pg w) (pg w')) \/
      (isDoesNotExist err = false /\ wrappedIn "Stats" err)) /\
  (forall cparams,
      Compact c cparams w = (w', Fail err) ->
      (isDoesNotExist err = true /\ namespace_absent c (pg w) (pg w')) \/
      (isDoesNotExist err = false /\ wrappedIn "Compact" err)) /\
  (ListIndexes c w = (w', Fail err) ->
   (isDoesNotExist err = true /\ namespace_absent c (pg w) (pg w')) \/
   (isDoesNotExist err = false /\ wrappedIn "ListIndexes" err)).
Proof.
  assert (Hwrapped : forall caller e,
             isDoesNotExist (LazyError caller e) = false /\
             wrappedIn caller (LazyError caller e))
    by (intros caller e; split; [reflexivity | now exists e]).
  split; [intros params | split; [intros params |]];
    unfold Stats, Compact, ListIndexes, Query_, Exec, namespace_absent; calls;
    (destruct (DatabaseGetExisting (dbName c) (pg w)) as [g [[p |] | e]] eqn:Hdb;
     simpl;
     [ destruct (CollectionGet (dbName c) (name c) g) as [g1 [[meta |] | e]]
         eqn:Hcoll; simpl;
       [ | intros [= <- <-]; left; split; [reflexivity |]; right; eauto
         | intros [= <- <-]; right; apply Hwrapped ]
     | intros [= <- <-]; left; split; [reflexivity | now left]
     | intros [= <- <-]; right; apply Hwrapped ]).
  - destruct (collectionsStats _ _ _ _ g1) as [g2 [st | e]]; simpl;
      [| intros [= <- <-]; right; apply Hwrapped].
    destruct (pgx_Query _ _ _ g2) as [g3 [rs | e]]; simpl;
      [| intros [= <- <-]; right; apply Hwrapped].
    destruct (scanIndexSizes _ _ _ _) as [sizes | e | msg] eqn:Hscan;
      [| | discriminate].
    + destruct (rows_Err rs); [| discriminate].
      intros [= <- <-]. right. apply Hwrapped.
    + intros [= <- <-]. right.
      destruct (scanIndexSizes_Fail _ _ _ _ _ Hscan) as [e0 ->].
      apply Hwrapped.
  - destruct (pgx_Exec _ _ _ g1) as [g2 [n | e]]; simpl; [discriminate |].
    intros [= <- <-]. right. apply Hwrapped.
  - discriminate.
Qed.

(** X9. With no documents, [InsertAll] still creates the collection and
    resolves the namespace, then runs a transaction in which no INSERT is
    sent, and succeeds. *)
Theorem InsertAll_no_documents (c : collection)
    (params : backends.InsertAllParams Document) (w : World PG) (g' : PG)
    (p : Pool) (meta : metadata.Collection) :
  insert_namespace c (pg w) g' p meta ->
  backends.Docs params = [] ->
  pgx_Begin p g' = None ->
  pgx_Commit p g' = None ->
  InsertAll c params w
  = ({| pg := g'; trace := trace w ++ [EvBegin None; EvCommit None] |},
     Done backends.Build_InsertAllResult).
Proof.
  intros (g0 & g1 & created & Hcreate & Hdb & Hcoll) Hdocs Hbegin Hcommit.
  unfold InsertAll, InTransaction. calls.
  rewrite Hcreate. simpl. rewrite Hdb. simpl. rewrite Hcoll. simpl.
  rewrite Hbegin, Hdocs. simp insertBatches. simpl. rewrite Hcommit.
  unfold record. simpl. now rewrite <- app_assoc.
Qed.

Lemma string_app_assoc (a b d : string) :
  (a +:+ b) +:+ d = a +:+ b +:+ d.
Proof.
  induction a as [| x a IH]; [reflexivity |].
  change (String x ((a +:+ b) +:+ d) = String x (a +:+ b +:+ d)).
  now rewrite IH.
Qed.

(** X10. [Explain] explains the statement [Query] runs: for the same
    filter, sort and limit, and a [Query] without comment that asks for whole
    documents, the round trips of [Explain] are those of [Query] with the
    statement put behind the plan-explanation prefix and the arguments
    unchanged; where [Query] sends nothing, neither does [Explain]. *)
Theorem Explain_mirrors_Query (c : collection)
    (qparams : backends.QueryParams Document)
    (eparams : backends.ExplainParams Document) (w : World PG) :
  backends.Comment qparams = EmptyString ->
  backends.OnlyRecordIDs qparams = false ->
  backends.Explain_Filter eparams = backends.Filter qparams ->
  backends.Explain_Sort eparams = backends.Sort qparams ->
  backends.Explain_Limit eparams = backends.Limit qparams ->
  exists new : list Event,
    trace (fst (Query c qparams w)) = trace w ++ new /\
    trace (fst (Explain c eparams w)) = trace w ++ map explainOf new.
Proof.
  intros Hcomment Hids Hfilter Hsort Hlimit.
  unfold Query, Explain, Query_, QueryRow_Scan. calls.
  rewrite Hcomment, Hids, Hfilter, Hsort, Hlimit.
  destruct (DatabaseGetExisting (dbName c) (pg w)) as [g [[p |] | e]]; simpl;
    try (exists []; simpl; now rewrite app_nil_r).
  destruct (CollectionGet (dbName c) (name c) g) as [g1 [[meta |] | e]]; simpl;
    try (exists []; simpl; now rewrite app_nil_r).
  destruct (prepareWhereClause _ _) as [ph [[where_ args] | e]]; simpl;
    try (exists []; simpl; now rewrite app_nil_r).
  destruct (prepareOrderByClause _ _ _) as [ph' [sort sortArgs]]. simpl.
  destruct (backends.Limit qparams =? 0); simpl;
    destruct (pgx_Query _ _ _ g1) as [g2 [rs | e]];
    destruct (pgx_QueryRow_Scan _ _ _ g1) as [g3 [b | e']]; simpl;
    try destruct (unmarshalExplain b); simpl;
    eexists [_]; (split; [reflexivity |]); simpl;
    now rewrite !string_app_assoc.
Qed.

(** X11. The LIMIT marker of [Query] numbers its argument: when the WHERE
    and ORDER BY compilers leave the placeholder at the number of arguments
    they produced, a [Query] with a limit sends a statement that ends in
    [LIMIT $k], [k] being the number of arguments sent, the last of which
    is the limit. *)
Theorem Query_limit_marker (c : collection)
    (params : backends.QueryParams Document) (w : World PG) (g' : PG)
    (p : Pool) (meta : metadata.Collection) (where_ sort : string)
    (args sortArgs : list arg) :
  namespace_exists c (pg w) g' p meta ->
  prepareWhereClause metadata.zero (backends.Filter params)
    = (length args, Ok (where_, args)) ->
  prepareOrderByClause (length args) (backends.Sort params)
    (metadata.Capped meta)
    = ((length args + length sortArgs)%nat, (sort, sortArgs)) ->
  backends.Limit params <> 0 ->
  exists (q0 : string) (sent : list arg),
    trace (fst (Query c params w))
    = trace w ++ [EvQuery (q0 +:+ " LIMIT " +:+ markerOf (length sent)) sent] /\
    sent = args ++ sortArgs ++ [ArgInt64 (backends.Limit params)].
Proof.
  intros (g1 & Hdb & Hcoll) Hwhere Hsort Hlimit.
  assert (Hlen : length (args ++ sortArgs ++ [ArgInt64 (backends.Limit params)])
                 = S (length args + length sortArgs)%nat)
    by (rewrite !length_app; simpl; lia).
  unfold Query, Query_, bind, lazily, call, ret, fail.
  cbn -[metadata.Next String.append]. rewrite Hdb.
  cbn -[metadata.Next String.append]. rewrite Hcoll.
  cbn -[metadata.Next String.append]. rewrite Hwhere, Hsort.
  cbn -[metadata.Next String.append].
  destruct (Z.eqb_spec (backends.Limit params) 0) as [H | _]; [contradiction |].
  cbn -[metadata.Next String.append].
  change (snd (metadata.Next (length args + length sortArgs)%nat))
    with (markerOf (S (length args + length sortArgs)%nat)).
  rewrite <- Hlen, <- app_assoc.
  destruct (pgx_Query p _ _ g') as [g2 [rs | e]];
    cbn -[metadata.Next String.append]; eexists _, _; split; reflexivity.
Qed.

(** **** The index sizes of [Stats] *)



(** **** A document without identifier in [UpdateAll] *)

Lemma updateDocs_missing_id (tx : Pool) (q : string) (pre : list Document)
    (doc : Document) (post : list Document) (b : list Byte.byte) :
  Forall updatable pre ->
  sjson_Marshal doc = Ok b ->
  Document_Get_id doc = None ->
  (forall (a : list arg) (g : PG),
      exists (g1 : PG) (n : Z), pgx_Exec tx q a g = (g1, Ok n)) ->
  forall (updated : Z) (w : World PG),
    exists (w' : World PG) (evs : list Event),
      updateDocs tx q (pre ++ doc :: post) updated w
      = (w', Panic "must.NotBeZero") /\
      trace w' = trace w ++ evs /\
      length evs = length pre /\
      forallb isExecOk evs = true.
Proof.
  intros Hpre Hb Hid Hexec.
  induction Hpre as [| d pre (b' & arg_ & id & Hb' & Hid' & Harg) _ IH];
    intros updated w; simpl.
  - rewrite Hb, Hid. exists w, []. rewrite app_nil_r; repeat split.
  - rewrite Hb', Hid', Harg. unfold bind, lazily, Exec.
    destruct (Hexec [ArgBytes b'; ArgBytes arg_] (pg w)) as (g1 & n & ->).
    destruct (IH (add32 updated (int32 n))
                {| pg := g1;
                   trace := trace w
                              ++ [EvExec q [ArgBytes b'; ArgBytes arg_] (Ok n)] |})
      as (w' & evs & Hrun & Htrace & Hlen & Hoks).
    exists w', (EvExec q [ArgBytes b'; ArgBytes arg_] (Ok n) :: evs).
    split; [exact Hrun |].
    split; [rewrite Htrace; simpl; now rewrite <- app_assoc |].
    split; [simpl; now rewrite Hlen | exact Hoks].
Qed.

(** X13. On an existing namespace, when a document of [UpdateAll] serialises
    but has no identifier, the call panics in [must.NotBeZero]: the UPDATEs
    of the documents before it have been sent, none after it is, and the
    transaction is rolled back, which leaves the engine as it was before the
    transaction. *)
Theorem UpdateAll_missing_id_panics (c : collection)
    (params : backends.UpdateAllParams Document) (w : World PG) (g' : PG)
    (p : Pool) (meta : metadata.Collection) (pre : list Document)
    (doc : Document) (post : list Document) (b : list Byte.byte) :
  namespace_exists c (pg w) g' p meta ->
  backends.Update_Docs params = pre ++ doc :: post ->
  Forall updatable pre ->
  sjson_Marshal doc = Ok b ->
  Document_Get_id doc = None ->
  pgx_Begin p g' = None ->
  (forall (a : list arg) (g : PG),
      exists (g1 : PG) (n : Z),
        pgx_Exec p (updateStatement c meta) a g = (g1, Ok n)) ->
  exists evs : list Event,
    UpdateAll c params w
    = ({| pg := g'; trace := trace w ++ EvBegin None :: evs ++ [EvRollback] |},
       Panic "must.NotBeZero") /\
    length evs = length pre /\
    forallb isExecOk evs = true.
Proof.
  intros (g1 & Hdb & Hcoll) Hdocs Hpre Hb Hid Hbegin Hexec.
  unfold UpdateAll, InTransaction. calls. rewrite Hdb. simpl.
  rewrite Hcoll. simpl. rewrite Hbegin, Hdocs.
  destruct (updateDocs_missing_id p (updateStatement c meta) pre doc post b
              Hpre Hb Hid Hexec 0
              (record (EvBegin None) {| pg := g'; trace := trace w |}))
    as (w' & evs & Hrun & Htrace & Hlen & Hoks).
  rewrite Hrun. simpl in *. exists evs. rewrite Htrace, <- !app_assoc. simpl.
  repeat split; assumption.
Qed.

End MoreAdapterFacts.

(** * Further properties of cursors *)

Section MoreCursorFacts.

Import cursor.

Context {Document Iter : Type} {I : DocumentsIterator Document Iter}.

(** X14. [Next] on a cursor that wraps an iterator and has not been closed
    hands on what the iterator returns, the document passed through
    [doc.Set("$recordId", ...)] when the cursor shows record identifiers,
    and leaves the cursor open: a [Close] that follows performs the
    teardown, on the iterator as [Next] left it. *)
Theorem Next_then_Close (c : Cursor Iter) (s : State Iter) (it it' : Iter)
    (doc : option Document) (err : option error) :
  closeOnce c = false ->
  closed c = false ->
  iter c = Some it ->
  iter_Next it = (it', (doc, err)) ->
  exists c' : Cursor Iter,
    Next c
    = (c', Done (option_map (fun d => if showRecordID c
                                      then Document_Set_recordId d else d) doc,
                 err)) /\
    iter c' = Some it' /\
    exists (c1 : Cursor Iter) (s1 : State Iter),
      Close c' s = (c1, s1, Done tt) /\
      effects s1 = effects s ++ [IterClose it'; RegistryDelete (ID c);
                                 ChanClose (ID c); Untrack (token c)] /\
      registry s1 = registry s ∖ {[ID c]}.
Proof.
  intros Honce Hclosed Hiter Hnext.
  exists {| created := created c; iter := Some it'; token := token c;
            closed := closed c; DB := DB c; Collection := Collection c;
            Username := Username c; ID := ID c; closeOnce := closeOnce c;
            showRecordID := showRecordID c |}.
  split; [| split].
  - unfold Next. rewrite Hiter, Hnext.
    destruct doc as [d |]; [destruct (showRecordID c) |]; reflexivity.
  - reflexivity.
  - eexists _, _. split; [| split].
    + unfold Close, teardown. simpl. rewrite Honce, Hclosed. reflexivity.
    + simpl. now rewrite <- !app_assoc.
    + reflexivity.
Qed.

(** X15. A cursor created without an iterator cannot be torn down: its
    first [Close] panics on the [nil] iterator before any side effect, the
    [sync.Once] is used up all the same, and every later [Close] returns at
    once, so the cursor stays in the registry and its token stays tracked. *)
Theorem Close_without_iterator (c : Cursor Iter) (s : State Iter) :
  closeOnce c = false ->
  iter c = None ->
  Close c s = (with_closeOnce c, s, Panic nilDereference) /\
  forall n : nat, CloseN (S n) c s = (with_closeOnce c, s).
Proof.
  intros Honce Hiter.
  assert (Hfirst : Close c s = (with_closeOnce c, s, Panic nilDereference)).
  { unfold Close, teardown. now rewrite Honce, Hiter. }
  split; [exact Hfirst |].
  intros n. simpl. rewrite Hfirst. now apply CloseN_done.
Qed.

(** X16. A cursor lives between [newCursor] and its first [Close]: created
    over an iterator, with a token that was not tracked before, it is
    tracked while it is open, and after [Close], called any number of
    times, the tracked tokens are those from before its creation and its
    identifier is not in the registry. *)
Theorem newCursor_then_Close (id : Z) (params : NewParams Iter) (now : Z)
    (s : State Iter) (it : Iter) (n : nat) :
  (nextToken s ∉ tracked s) ->
  Iter_ params = Some it ->
  exists (c c' : Cursor Iter) (s1 s' : State Iter),
    newCursor id params now s = (c, s1) /\
    (token c ∈ tracked s1) /\
    CloseN (S n) c s1 = (c', s') /\
    tracked s' = tracked s /\
    (id ∉ registry s') /\
    effects s' = effects s ++ [IterClose it; RegistryDelete id; ChanClose id;
                               Untrack (nextToken s)].
Proof.
  intros Hfresh Hiter.
  eexists _, _, _, _. split; [reflexivity |].
  split; [simpl; set_solver |].
  split.
  - simpl. unfold Close, teardown. simpl. rewrite Hiter. simpl.
    now apply CloseN_done.
  - simpl. split; [set_solver |]. split; [set_solver |].
    now rewrite <- !app_assoc.
Qed.

End MoreCursorFacts.

(** * The further properties on the sample engine *)

Section MoreSampleFacts.

Import Postgresql PostgresqlMore.

#[local] Existing Instance Sample.env.
#[local] Existing Instance SampleMore.registry.

Lemma UpdateAll_DeleteAll_Explain_absent_namespace_witness :
  UpdateAll (env := Sample.env) Sample.users
    {| backends.Update_Docs := [Sample.doc 1] |}
    (Sample.world Sample.NoCollection [1])
  = (Sample.world Sample.NoCollection [1], Done {| backends.Updated := 0 |}) /\
  DeleteAll (env := Sample.env) Sample.users SampleMore.byID
    (Sample.world Sample.NoCollection [1])
  = (Sample.world Sample.NoCollection [1], Done {| Deleted := 0 |}) /\
  Explain (env := Sample.env) Sample.users Sample.eparams
    (Sample.world Sample.NoCollection [1])
  = (Sample.world Sample.NoCollection [1], Done emptyExplainResult).
Proof.
  apply (UpdateAll_DeleteAll_Explain_absent_namespace (env := Sample.env)
           Sample.users {| backends.Update_Docs := [Sample.doc 1] |}
           SampleMore.byID Sample.eparams
           (Sample.world Sample.NoCollection [1])).
  right. eexists _, tt. split; reflexivity.
Defined.

Lemma DeleteAll_by_record_id_witness :
  snd (DeleteAll (env := Sample.env) Sample.users SampleMore.byRecordID
         (Sample.world Sample.Ready [1; 2]))
  = Done {| Deleted := 0 |} /\
  trace (fst (DeleteAll (env := Sample.env) Sample.users SampleMore.byRecordID
                (Sample.world Sample.Ready [1; 2])))
  = [EvExec "DELETE FROM app.users_1 WHERE _ferretdb_record_id IN ($1, $2, $3)"
       [ArgInt64 10; ArgInt64 11; ArgInt64 12] (Ok 0)].
Proof.
  rewrite (DeleteAll_by_record_id (env := Sample.env) Sample.users
             SampleMore.byRecordID (Sample.world Sample.Ready [1; 2])
             SampleMore.ready tt Sample.meta [10; 11; 12]).
  - split; reflexivity.
  - eexists. split; reflexivity.
  - reflexivity.
Defined.

Lemma DeleteAll_by_id_witness :
  snd (DeleteAll (env := Sample.env) Sample.users SampleMore.byID
         (Sample.world Sample.Ready [1; 2]))
  = Done {| Deleted := 0 |} /\
  trace (fst (DeleteAll (env := Sample.env) Sample.users SampleMore.byID
                (Sample.world Sample.Ready [1; 2])))
  = [EvExec "DELETE FROM app.users_1 WHERE _id IN ($1, $2)"
       [ArgString (string_of_list_byte (Sample.encode 1));
        ArgString (string_of_list_byte (Sample.encode 5))] (Ok 0)].
Proof.
  destruct (DeleteAll_by_id (env := Sample.env) Sample.users
              SampleMore.byID (Sample.world Sample.Ready [1; 2])
              SampleMore.ready tt Sample.meta
              [Sample.encode 1; Sample.encode 5]) as [_ Hrun].
  - eexists. split; reflexivity.
  - reflexivity.
  - repeat constructor.
  - rewrite Hrun. split; reflexivity.
Defined.

Lemma DeleteAll_unserialisable_id_panics_witness :
  DeleteAll (env := SampleMore.strict) Sample.users
    {| IDs := [1; -5; 2]; RecordIDs := None |}
    (Sample.world Sample.Ready [1; 2])
  = (Sample.world Sample.Ready [1; 2], Panic "must.NotFail").
Proof.
  apply (DeleteAll_unserialisable_id_panics (env := SampleMore.strict)
           Sample.users {| IDs := [1; -5; 2]; RecordIDs := None |}
           (Sample.world Sample.Ready [1; 2]) SampleMore.ready tt Sample.meta).
  - eexists. split; reflexivity.
  - reflexivity.
  - right. left. eexists. reflexivity.
Defined.

Lemma CreateIndexes_then_ListIndexes_witness :
  exists (w1 : World Sample.Store) (res : backends.ListIndexesResult),
    CreateIndexes (reg := SampleMore.registry) Sample.users SampleMore.created
      (Sample.world Sample.Ready []) = (w1, Done Build_CreateIndexesResult) /\
    ListIndexes (env := Sample.env) Sample.users w1
    = (Sample.world Sample.Ready [], Done res) /\
    Permutation (CreateIndexes_Indexes SampleMore.created)
      (backends.Indexes res) /\
    StronglySorted nameLe (backends.Indexes res).
Proof.
  apply (CreateIndexes_then_ListIndexes (env := Sample.env) Sample.users
           SampleMore.created (Sample.world Sample.Ready [])
           {| Sample.catalog := Sample.Ready; Sample.ids := [] |}
           {| Sample.catalog := Sample.Ready; Sample.ids := [] |}
           tt Sample.meta insertionSort_contract).
  - reflexivity.
  - eexists. split; reflexivity.
  - repeat constructor.
Defined.


Lemma errors_are_wrapped_witness :
  (exists e : error,
      LazyError "Query" (DriverError "connection refused")
      = LazyError "Query" e /\
      (databaseLookupError Sample.users
         (pg (Sample.world Sample.Unreachable [])) e \/
       collectionLookupError Sample.users
         (pg (Sample.world Sample.Unreachable [])) e \/
       (exists ph : metadata.Placeholder,
           prepareWhereClause metadata.zero (backends.Filter Sample.qparams)
           = (ph, Err e)) \/
       refusedQuery e (Sample.world Sample.Unreachable [])
         (Sample.world Sample.Unreachable []))) /\
  (exists e : error,
      LazyError "DeleteAll" (DriverError "connection refused")
      = LazyError "DeleteAll" e /\
      (databaseLookupError Sample.users
         (pg (Sample.world Sample.Unreachable [])) e \/
       collectionLookupError Sample.users
         (pg (Sample.world Sample.Unreachable [])) e \/
       refusedExec e (Sample.world Sample.Unreachable [])
         (Sample.world Sample.Unreachable []) [] [])).
Proof.
  pose proof (errors_are_wrapped (env := Sample.env)
                (reg := SampleMore.registry) Sample.users
                (Sample.world Sample.Unreachable [])
                (Sample.world Sample.Unreachable [])) as Hwrapped.
  split.
  - apply (proj1 (Hwrapped
                    (LazyError "Query" (DriverError "connection refused")))
             Sample.qparams).
    reflexivity.
  - apply (proj1 (proj2 (proj2 (proj2
             (Hwrapped
                (LazyError "DeleteAll" (DriverError "connection refused"))))))
             SampleMore.byID).
    reflexivity.
Defined.

Lemma does_not_exist_only_when_absent_witness :
  (isDoesNotExist
     (BackendError ErrorCodeDatabaseDoesNotExist
        (noNamespace "Compact" Sample.users)) = true /\
   namespace_absent (env := Sample.env) Sample.users
     (pg (Sample.world Sample.NoDatabase []))
     (pg (Sample.world Sample.NoDatabase []))) \/
  (isDoesNotExist
     (BackendError ErrorCodeDatabaseDoesNotExist
        (noNamespace "Compact" Sample.users)) = false /\
   wrappedIn "Compact"
     (BackendError ErrorCodeDatabaseDoesNotExist
        (noNamespace "Compact" Sample.users))).
Proof.
  apply (proj1 (proj2 (does_not_exist_only_when_absent (env := Sample.env)
                         Sample.users (Sample.world Sample.NoDatabase [])
                         (Sample.world Sample.NoDatabase [])
                         (BackendError ErrorCodeDatabaseDoesNotExist
                            (noNamespace "Compact" Sample.users))))
           None).
  reflexivity.
Defined.

Lemma InsertAll_no_documents_witness :
  InsertAll (env := Sample.env) Sample.users {| backends.Docs := [] |}
    (Sample.world Sample.NoDatabase [])
  = ({| pg := {| Sample.catalog := Sample.Ready; Sample.ids := [] |};
        trace := [EvBegin None; EvCommit None] |},
     Done backends.Build_InsertAllResult).
Proof.
  apply (InsertAll_no_documents (env := Sample.env) Sample.users
           {| backends.Docs := [] |} (Sample.world Sample.NoDatabase [])
           {| Sample.catalog := Sample.Ready; Sample.ids := [] |}
           tt Sample.meta).
  - eexists _, _, _. repeat split; reflexivity.
  - reflexivity.
  - reflexivity.
  - reflexivity.
Defined.

Lemma Explain_mirrors_Query_witness :
  exists new : list Event,
    trace (fst (Query (env := Sample.env) Sample.users Sample.qparams
                  (Sample.world Sample.Ready [1; 2])))
    = trace (Sample.world Sample.Ready [1; 2]) ++ new /\
    trace (fst (Explain (env := Sample.env) Sample.users Sample.eparams
                  (Sample.world Sample.Ready [1; 2])))
    = trace (Sample.world Sample.Ready [1; 2]) ++ map explainOf new.
Proof.
  apply (Explain_mirrors_Query (env := Sample.env) Sample.users
           Sample.qparams Sample.eparams (Sample.world Sample.Ready [1; 2]));
    reflexivity.
Defined.

Lemma Query_limit_marker_witness :
  exists (q0 : string) (sent : list arg),
    trace (fst (Query (env := Sample.env) Sample.users Sample.qparams
                  (Sample.world Sample.Ready [1; 2])))
    = trace (Sample.world Sample.Ready [1; 2])
        ++ [EvQuery (q0 +:+ " LIMIT " +:+ markerOf (length sent)) sent] /\
    sent = [ArgInt64 1] ++ [] ++ [ArgInt64 (backends.Limit Sample.qparams)].
Proof.
  apply (Query_limit_marker (env := Sample.env) Sample.users Sample.qparams
           (Sample.world Sample.Ready [1; 2]) SampleMore.ready tt Sample.meta
           " WHERE _id = $1" EmptyString [ArgInt64 1] []).
  - eexists. split; reflexivity.
  - reflexivity.
  - reflexivity.
  - discriminate.
Defined.


Lemma UpdateAll_missing_id_panics_witness :
  exists evs : list Event,
    UpdateAll (env := Sample.env) Sample.users
      {| backends.Update_Docs :=
           [Sample.doc 1; SampleMore.anonymous; Sample.doc 2] |}
      (Sample.world Sample.Ready [1; 2])
    = ({| pg := SampleMore.ready;
          trace := trace (Sample.world Sample.Ready [1; 2])
                     ++ EvBegin None :: evs ++ [EvRollback] |},
       Panic "must.NotBeZero") /\
    length evs = length [Sample.doc 1] /\
    forallb isExecOk evs = true.
Proof.
  apply (UpdateAll_missing_id_panics (env := Sample.env) Sample.users
           {| backends.Update_Docs :=
                [Sample.doc 1; SampleMore.anonymous; Sample.doc 2] |}
           (Sample.world Sample.Ready [1; 2]) SampleMore.ready tt Sample.meta
           [Sample.doc 1] SampleMore.anonymous [Sample.doc 2]
           [Byte.x7b; Byte.x7d]).
  - eexists. split; reflexivity.
  - reflexivity.
  - repeat constructor. eexists _, _, _. repeat split; reflexivity.
  - reflexivity.
  - reflexivity.
  - reflexivity.
  - intros a g. unfold pgx_Exec. simpl. unfold Sample.exec. simpl.
    destruct a as [| a1 [| a2 [| a3 a]]]; eauto.
Defined.

End MoreSampleFacts.

Section MoreSampleCursorFacts.

Import cursor.

#[local] Existing Instance Sample.iterator.

Lemma Next_then_Close_witness :
  exists c' : Cursor (list Z),
    Next (fst Sample.fresh) = (c', Done (Some 1, None)) /\
    iter c' = Some [2; 3] /\
    exists (c1 : Cursor (list Z)) (s1 : State (list Z)),
      Close c' (snd Sample.fresh) = (c1, s1, Done tt) /\
      effects s1 = effects (snd Sample.fresh)
                   ++ [IterClose [2; 3]; RegistryDelete (ID (fst Sample.fresh));
                       ChanClose (ID (fst Sample.fresh));
                       Untrack (token (fst Sample.fresh))] /\
      registry s1 = registry (snd Sample.fresh) ∖ {[ID (fst Sample.fresh)]}.
Proof.
  apply (Next_then_Close (fst Sample.fresh) (snd Sample.fresh)
           [1; 2; 3] [2; 3] (Some 1) None); reflexivity.
Defined.

(** A cursor created over no iterator. *)
Lemma Close_without_iterator_witness :
  let c := fst (newCursor (Iter := list Z) 7
                  {| Iter_ := None; NewParams_DB := "app";
                     NewParams_Collection := "users";
                     NewParams_Username := EmptyString;
                     ShowRecordID := false |} 0 Sample.emptyState) in
  Close c Sample.emptyState
  = (with_closeOnce c, Sample.emptyState, Panic nilDereference) /\
  forall n : nat, CloseN (S n) c Sample.emptyState
                  = (with_closeOnce c, Sample.emptyState).
Proof.
  intros c. apply (Close_without_iterator c Sample.emptyState); reflexivity.
Defined.

Lemma newCursor_then_Close_witness :
  exists (c c' : Cursor (list Z)) (s1 s' : State (list Z)),
    newCursor 7 Sample.newParams 0 Sample.emptyState = (c, s1) /\
    (token c ∈ tracked s1) /\
    CloseN 3 c s1 = (c', s') /\
    tracked s' = tracked Sample.emptyState /\
    (7 ∉ registry s') /\
    effects s' = effects Sample.emptyState
                 ++ [IterClose [1; 2; 3]; RegistryDelete 7; ChanClose 7;
                     Untrack (nextToken Sample.emptyState)].
Proof.
  apply (newCursor_then_Close 7 Sample.newParams 0 Sample.emptyState
           [1; 2; 3] 2).
  - simpl. set_solver.
  - reflexivity.
Defined.

End MoreSampleCursorFacts.

(** * Properties of the [listCollections] command *)

Section HandlerFacts.

Import handler.

Context {Msg Document Value Uuid Database Code W : Type}.
Context {env : Collaborators Msg Document Value Uuid Database Code W}.

Lemma parsed_fullDocument (collection : CollectionInfo) :
  ~ malformedUUID collection ->
  (if String.eqb (UUID collection) EmptyString
   then Ok (collectionDocument (Name collection))
   else match uuid_Parse (UUID collection) with
        | Ok uuid => Ok (withUUID (collectionDocument (Name collection)) uuid)
        | Err e => Err e
        end) = Ok (fullDocument collection).
Proof.
  intros Hok. unfold fullDocument.
  destruct (String.eqb_spec (UUID collection) EmptyString) as [_ | Hne];
    [reflexivity |].
  destruct (uuid_Parse (UUID collection)) as [uuid | e] eqn:Hparse;
    [reflexivity |].
  exfalso. apply Hok. split; [exact Hne | now exists e].
Qed.

Lemma listLoop_spec (filter : option Document) (nameOnly : bool)
    (cols : list CollectionInfo) :
  Forall (listable filter) cols ->
  forall collections : list Document,
    listLoop filter nameOnly cols collections
    = HOk (collections
             ++ map (listed nameOnly) (List.filter (accepted filter) cols)).
Proof.
  induction 1 as [| col cols [Huuid (b & Hb)] _ IH]; intros collections; simpl.
  - now rewrite app_nil_r.
  - rewrite (parsed_fullDocument col Huuid). unfold accepted. rewrite Hb.
    destruct b; rewrite IH; [| reflexivity].
    rewrite <- app_assoc. reflexivity.
Qed.

(** X17. When the request is read, the database handle is got and the
    backend lists the collections, each with a UUID that parses or with none,
    the command replies with cursor 0 on the namespace
    [<db>.$cmd.listCollections] and a first batch that has, in the order of
    the backend, one document for every collection whose document with name,
    type and UUID the filter accepts.  [nameOnly] reduces the documents
    listed to the name; it does not change which collections are listed,
    the filter still being applied to the whole document. *)
Theorem MsgListCollections_lists (msg : Msg) (w w' : W)
    (filter : option Document) (dbName : string) (nameOnly : bool)
    (db : Database) (cols : list CollectionInfo) :
  request msg filter dbName nameOnly ->
  Backend_Database dbName = Ok db ->
  Database_ListCollections db w = (w', Ok cols) ->
  Forall (listable filter) cols ->
  MsgListCollections msg w
  = (w', HOk {| cursor_id := 0;
                cursor_ns := dbName +:+ ".$cmd.listCollections";
                cursor_firstBatch :=
                  map (listed nameOnly) (List.filter (accepted filter) cols);
                ok := 1 |}).
Proof.
  intros (document & Hdoc & Hfilter & Hdb & HnameOnly) Hhandle Hlist Hcols.
  unfold MsgListCollections. rewrite Hdoc, Hfilter, Hdb.
  assert (Hflag : match Document_Get_nameOnly document with
                  | None => HOk false
                  | Some v => GetBoolOptionalParam_nameOnly v
                  end = HOk (Code := Code) nameOnly).
  { destruct (Document_Get_nameOnly document); [exact HnameOnly | now subst]. }
  rewrite Hflag, Hhandle, Hlist, (listLoop_spec _ _ _ Hcols). reflexivity.
Qed.

(** X18. When the backend refuses the database name as invalid, the command
    returns the command error [ErrInvalidNamespace] that names the database;
    any other error of the backend at that step is returned wrapped by
    [lazyerrors.Error], and in both cases the backend is not asked for the
    collections. *)
Theorem MsgListCollections_invalid_namespace (msg : Msg) (w : W)
    (filter : option Document) (dbName : string) (nameOnly : bool)
    (e : error) :
  request msg filter dbName nameOnly ->
  Backend_Database dbName = Err e ->
  MsgListCollections msg w
  = (w, HErr (if isDatabaseNameInvalid e
              then CommandError ErrInvalidNamespace
                     ("Invalid namespace specified '" +:+ dbName +:+ "'")
                     "listCollections"
              else lazyError e)).
Proof.
  intros (document & Hdoc & Hfilter & Hdb & HnameOnly) Hhandle.
  unfold MsgListCollections. rewrite Hdoc, Hfilter, Hdb.
  assert (Hflag : match Document_Get_nameOnly document with
                  | None => HOk false
                  | Some v => GetBoolOptionalParam_nameOnly v
                  end = HOk (Code := Code) nameOnly).
  { destruct (Document_Get_nameOnly document); [exact HnameOnly | now subst]. }
  rewrite Hflag, Hhandle. now destruct (isDatabaseNameInvalid e).
Qed.



End HandlerFacts.

Section SampleHandlerFacts.

Import handler.

#[local] Existing Instance SampleHandler.env.

Lemma MsgListCollections_lists_witness :
  MsgListCollections (env := SampleHandler.env) SampleHandler.request
    [SampleHandler.logs; SampleHandler.users]
  = ([SampleHandler.logs; SampleHandler.users],
     HOk {| cursor_id := 0;
            cursor_ns := "app.$cmd.listCollections";
            cursor_firstBatch :=
              [nameDocument (Collaborators := SampleHandler.env) "users"];
            ok := 1 |}).
Proof.
  rewrite (MsgListCollections_lists (env := SampleHandler.env)
             SampleHandler.request
             [SampleHandler.logs; SampleHandler.users]
             [SampleHandler.logs; SampleHandler.users]
             (Some {| SampleHandler.db := EmptyString;
                      SampleHandler.nameOnly := None;
                      SampleHandler.filter := Some [("name", "users")] |})
             "app" true "app" [SampleHandler.logs; SampleHandler.users]).
  - reflexivity.
  - eexists. repeat split; reflexivity.
  - reflexivity.
  - reflexivity.
  - repeat constructor; try (eexists; reflexivity);
      intros [Hne (e & He)]; try (now apply Hne); discriminate.
Defined.

Lemma MsgListCollections_invalid_namespace_witness :
  MsgListCollections (env := SampleHandler.env)
    {| SampleHandler.db := EmptyString; SampleHandler.nameOnly := None;
       SampleHandler.filter := None |} [SampleHandler.users]
  = ([SampleHandler.users],
     HErr (CommandError 73 "Invalid namespace specified ''" "listCollections")).
Proof.
  rewrite (MsgListCollections_invalid_namespace (env := SampleHandler.env)
             {| SampleHandler.db := EmptyString;
                SampleHandler.nameOnly := None;
                SampleHandler.filter := None |} [SampleHandler.users]
             None EmptyString false (DriverError "database name is invalid")).
  - reflexivity.
  - eexists. repeat split; reflexivity.
  - reflexivity.
Defined.


End SampleHandlerFacts.
